(** * libcontainerd/container_windows.go: container start and exit monitoring

    A shallow embedding of [container.start] and [container.waitExit].
    Every call that leaves the function (hcsshim, the backend, the client
    registry, the restart manager, logrus, the [go] statement and the channel
    receive) is recorded as an [event]; the answers of the collaborators are
    read from a [Host] record, so that a statement quantified over [Host]
    covers every behaviour of the collaborators.  The goroutine spawned by
    [waitExit] shares the variable [si] with its parent: the tail of
    [waitExit] is therefore run as a two-thread machine over a shared store,
    driven by a schedule. *)

From Stdlib Require Import ZArith List String Bool Lia.
Import ListNotations.
Open Scope string_scope.
Open Scope list_scope.
Open Scope Z_scope.

(** ** Go values *)

(** Go's [error] interface, restricted to the dynamic types the code tells
    apart: [syscall.Errno], [*hcsshim.HcsError] (a title and a wrapped
    error) and any other error. *)
Inductive error : Type :=
| Errno (code : Z)
| HcsError (Title : string) (Err : error)
| errorString (msg : string).

(** [e != syscall.Errno(n)] on interface values: equal only when the dynamic
    type is [syscall.Errno] and the numbers agree. *)
Definition neq_errno (e : error) (n : Z) : bool :=
  match e with
  | Errno m => negb (m =? n)
  | _ => true
  end.

(** [uint32(x)] *)
Definition uint32 (x : Z) : Z := x mod 2 ^ 32.
Arguments uint32 : simpl never.

(** Windows error numbers of Go's syscall package. *)
Module syscall.
Definition ERROR_PATH_NOT_FOUND : Z := 3.
Definition ERROR_BROKEN_PIPE : Z := 109.
End syscall.

(** Constants of github.com/Microsoft/hcsshim. *)
Module hcsshim.
Definition ERROR_SHUTDOWN_IN_PROGRESS : Z := 1115.
Definition TimeoutInfinite : Z := 0xFFFFFFFF.
End hcsshim.

(** An open pipe end ([io.WriteCloser], [io.ReadCloser], [io.Reader]);
    [None] is Go's nil. *)
Definition handle : Type := nat.

(** ** Types declared outside container_windows.go *)

(** Modelled from the spec: the state tags of a StateInfo ("one of Start,
    Exit, ExitProcess, Restart"); the constants are declared in types.go. *)
Inductive State : Type := StateStart | StateExit | StateExitProcess | StateRestart.

Definition State_eqb (a b : State) : bool :=
  match a, b with
  | StateStart, StateStart | StateExit, StateExit
  | StateExitProcess, StateExitProcess | StateRestart, StateRestart => true
  | _, _ => false
  end.

(** Modelled from the spec: StateInfo, "state tag, process id, exit code,
    friendly name, pending-update flag" (CommonStateInfo is flattened). *)
Record StateInfo : Type := mkStateInfo {
  si_State : State;
  si_Pid : Z;
  si_ExitCode : Z;
  si_ProcessID : string;
  si_UpdatePending : bool
}.

Definition set_State (si : StateInfo) (s : State) : StateInfo :=
  mkStateInfo s (si_Pid si) (si_ExitCode si) (si_ProcessID si) (si_UpdatePending si).

Definition set_UpdatePending (si : StateInfo) (b : bool) : StateInfo :=
  mkStateInfo (si_State si) (si_Pid si) (si_ExitCode si) (si_ProcessID si) b.

(** Modelled from the spec: IOPipe, "three independent byte-stream handles
    plus a terminal flag". *)
Record IOPipe : Type := mkIOPipe {
  iop_Stdin : option handle;
  iop_Stdout : option handle;
  iop_Stderr : option handle;
  iop_Terminal : bool
}.

(** Modelled from the spec: the creation options, "a polymorphic option set;
    one variant marks servicing mode". *)
Inductive CreateOption : Type :=
| ServicingOption (IsServicing : bool)
| OtherOption (name : string).

(** Modelled from the spec: the process definition, "terminal flag, working
    directory, initial console size, environment variables, argument list";
    the type is declared outside container_windows.go. *)
Record Process : Type := mkProcess {
  Terminal : bool;
  Cwd : string;
  InitialConsoleSize : Z * Z;
  Env : list string;
  Args : list string
}.

Record Spec : Type := mkSpec { spec_Process : Process }.

(** hcsshim.CreateProcessParams, the fields [start] fills. *)
Record CreateProcessParams : Type := mkParams {
  EmulateConsole : bool;
  WorkingDirectory : string;
  ConsoleSize : Z * Z;
  Environment : list (string * string);
  CommandLine : string
}.

Record ComputeSystemProperties : Type := mkProps { AreUpdatesPending : bool }.

(** restartmanager.RestartManager: [ShouldRestart] answers with the restart
    decision, the value that its [wait] channel delivers when the goroutine
    receives from it, and an error. *)
Record RestartManager : Type := mkRestartManager {
  ShouldRestart : Z -> bool -> Z -> bool * option error * option error
}.

(** The container.  Modelled from the spec: the fields of the embedded
    [containerCommon], declared in another file ("containerID",
    "friendlyName", "systemPid", the restart manager, "restarting",
    "startedAt"); the last three fields are those of lines 13-25. *)
Record container : Type := mkContainer {
  containerID : string;
  friendlyName : string;
  systemPid : Z;
  restartManager : option RestartManager;
  restarting : bool;
  startedAt : Z;
  options : list CreateOption;
  ociSpec : Spec;
  manualStopRequested : bool
}.

Definition set_startedAt (ctr : container) (t : Z) : container :=
  mkContainer (containerID ctr) (friendlyName ctr) (systemPid ctr) (restartManager ctr)
    (restarting ctr) t (options ctr) (ociSpec ctr) (manualStopRequested ctr).

Definition set_systemPid (ctr : container) (pid : Z) : container :=
  mkContainer (containerID ctr) (friendlyName ctr) pid (restartManager ctr)
    (restarting ctr) (startedAt ctr) (options ctr) (ociSpec ctr) (manualStopRequested ctr).

Definition set_restarting (ctr : container) (b : bool) : container :=
  mkContainer (containerID ctr) (friendlyName ctr) (systemPid ctr) (restartManager ctr)
    b (startedAt ctr) (options ctr) (ociSpec ctr) (manualStopRequested ctr).

(** ** The collaborators *)

(** What the host compute service, the backend and the clock answer.  An
    answer is a function of the arguments of the call; the two functions
    repeat no call, but for the goroutine's [StateChanged], whose answer
    decides a log line only. *)
Record Host : Type := mkHost {
  StartComputeSystem : string -> option error;
  ShutdownComputeSystem : string -> Z -> string -> option error;
  TerminateComputeSystem : string -> Z -> string -> option error;
  CreateProcessInComputeSystem :
    string -> bool -> bool -> bool -> CreateProcessParams ->
    Z * option handle * option handle * option handle * option error;
  WaitForProcessInComputeSystem : string -> Z -> Z -> Z * option error;
  GetComputeSystemProperties : string -> Z -> ComputeSystemProperties * option error;
  AttachStreams : string -> IOPipe -> option error;
  StateChanged : string -> StateInfo -> option error;
  Now : Z;
  Since : Z -> Z
}.

(** ** Events *)

Inductive level : Type := LDebug | LWarn | LError.

Inductive event : Type :=
| EvLog (lvl : level) (msg : string)
| EvStartComputeSystem (id : string)
| EvShutdownComputeSystem (id : string) (timeout : Z) (reason : string)
| EvTerminateComputeSystem (id : string) (timeout : Z) (reason : string)
| EvCreateProcessInComputeSystem (id : string) (useStdin useStdout useStderr : bool)
    (params : CreateProcessParams)
| EvWaitForProcessInComputeSystem (id : string) (pid : Z) (timeout : Z)
| EvGetComputeSystemProperties (id : string) (flags : Z)
| EvShouldRestart (exitCode : Z) (hasBeenManuallyStopped : bool) (executionDuration : Z)
| EvGoWaitExit (pid : Z) (processFriendlyName : string) (isFirstProcessToStart : bool)
| EvGoFunc
| EvChanRecv (err : option error)
| EvAppendContainer (id : string)
| EvDeleteContainer (name : string)
| EvAttachStreams (id : string) (iopipe : IOPipe)
| EvStateChanged (id : string) (si : StateInfo)
| EvCreate (id : string) (spec : Spec) (opts : list CreateOption).

Definition trace : Type := list event.

(** ** A writer monad for straight-line code *)

Definition M (A : Type) : Type := (trace * A)%type.

Definition ret {A : Type} (a : A) : M A := ([], a).

Definition bind {A B : Type} (m : M A) (k : A -> M B) : M B :=
  let (t1, a) := m in
  let (t2, b) := k a in
  (t1 ++ t2, b).

Definition emit {A : Type} (e : event) (a : A) : M A := ([e], a).

Definition log (lvl : level) (msg : string) : M unit := emit (EvLog lvl msg) tt.

Notation "x <- m ;; k" := (bind m (fun x => k))
  (at level 61, m at next level, right associativity).
Notation "m ;;; k" := (bind m (fun _ => k))
  (at level 61, right associativity).

Definition when (b : bool) (m : M unit) : M unit := if b then m else ret tt.

Definition is_nil {A : Type} (o : option A) : bool :=
  match o with None => true | Some _ => false end.

(** ** Reading a trace *)

Definition is_Log (e : event) : bool :=
  match e with EvLog _ _ => true | _ => false end.
Definition is_Shutdown (e : event) : bool :=
  match e with EvShutdownComputeSystem _ _ _ => true | _ => false end.
Definition is_Terminate (e : event) : bool :=
  match e with EvTerminateComputeSystem _ _ _ => true | _ => false end.
Definition is_CreateProcess (e : event) : bool :=
  match e with EvCreateProcessInComputeSystem _ _ _ _ _ => true | _ => false end.
Definition is_ShouldRestart (e : event) : bool :=
  match e with EvShouldRestart _ _ _ => true | _ => false end.
Definition is_GoWaitExit (e : event) : bool :=
  match e with EvGoWaitExit _ _ _ => true | _ => false end.
Definition is_GoFunc (e : event) : bool :=
  match e with EvGoFunc => true | _ => false end.
Definition is_ChanRecv (e : event) : bool :=
  match e with EvChanRecv _ => true | _ => false end.
Definition is_AppendContainer (e : event) : bool :=
  match e with EvAppendContainer _ => true | _ => false end.
Definition is_DeleteContainer (e : event) : bool :=
  match e with EvDeleteContainer _ => true | _ => false end.
Definition is_AttachStreams (e : event) : bool :=
  match e with EvAttachStreams _ _ => true | _ => false end.
Definition is_StateChanged (e : event) : bool :=
  match e with EvStateChanged _ _ => true | _ => false end.
Definition is_Create (e : event) : bool :=
  match e with EvCreate _ _ _ => true | _ => false end.

(** The calls made to the collaborators, logging left out. *)
Definition calls (tr : trace) : trace := filter (fun e => negb (is_Log e)) tr.

(** No event of the trace satisfies [p]. *)
Definition never (p : event -> bool) (tr : trace) : bool :=
  forallb (fun e => negb (p e)) tr.

(** Some event of the trace satisfies [p]. *)
Definition occurs (p : event -> bool) (tr : trace) : bool := existsb p tr.

(** A [p] event happens, and no [q] event happens before the first one. *)
Fixpoint precedes (p q : event -> bool) (tr : trace) : bool :=
  match tr with
  | [] => false
  | e :: tr' => if p e then true else if q e then false else precedes p q tr'
  end.

(** The StateInfo values handed to [StateChanged], in order. *)
Fixpoint notifications (tr : trace) : list StateInfo :=
  match tr with
  | [] => []
  | EvStateChanged _ si :: tr' => si :: notifications tr'
  | _ :: tr' => notifications tr'
  end.

(** The timeouts of the shutdown calls, in order. *)
Fixpoint shutdown_timeouts (tr : trace) : list Z :=
  match tr with
  | [] => []
  | EvShutdownComputeSystem _ t _ :: tr' => t :: shutdown_timeouts tr'
  | _ :: tr' => shutdown_timeouts tr'
  end.

(** The timeouts of the termination calls, in order. *)
Fixpoint terminate_timeouts (tr : trace) : list Z :=
  match tr with
  | [] => []
  | EvTerminateComputeSystem _ t _ :: tr' => t :: terminate_timeouts tr'
  | _ :: tr' => terminate_timeouts tr'
  end.

(** The stdin, stdout and stderr flags of the process-creation requests. *)
Fixpoint create_requests (tr : trace) : list (bool * bool * bool) :=
  match tr with
  | [] => []
  | EvCreateProcessInComputeSystem _ i o e _ :: tr' => (i, o, e) :: create_requests tr'
  | _ :: tr' => create_requests tr'
  end.

(** The [go ctr.waitExit] statements, in order. *)
Fixpoint monitors (tr : trace) : list (Z * string * bool) :=
  match tr with
  | [] => []
  | EvGoWaitExit pid name isFirst :: tr' => (pid, name, isFirst) :: monitors tr'
  | _ :: tr' => monitors tr'
  end.

(** The containers handed to [appendContainer], in order. *)
Fixpoint registrations (tr : trace) : list string :=
  match tr with
  | [] => []
  | EvAppendContainer id :: tr' => id :: registrations tr'
  | _ :: tr' => registrations tr'
  end.

(** The compute system or container an event addresses, when it names one
    by its id. *)
Definition event_container (e : event) : option string :=
  match e with
  | EvStartComputeSystem id | EvShutdownComputeSystem id _ _
  | EvTerminateComputeSystem id _ _ | EvCreateProcessInComputeSystem id _ _ _ _
  | EvWaitForProcessInComputeSystem id _ _ | EvGetComputeSystemProperties id _
  | EvAppendContainer id | EvAttachStreams id _ | EvStateChanged id _
  | EvCreate id _ _ => Some id
  | _ => None
  end.

(** The registry key an event removes. *)
Definition event_deregisters (e : event) : option string :=
  match e with
  | EvDeleteContainer name => Some name
  | _ => None
  end.

(** ** Sample collaborators and containers *)

Definition sample_process (terminal : bool) : Process :=
  mkProcess terminal "C:/" (80, 25) ["A=1"] ["cmd"; "/c"; "ver"].

(** A host on which every call succeeds; the process exits with code 1. *)
Definition host_ok : Host :=
  mkHost (fun _ => None) (fun _ _ _ => None) (fun _ _ _ => None)
    (fun _ _ _ useStderr _ =>
       (4, Some 1%nat, Some 2%nat, if useStderr then Some 3%nat else None, None))
    (fun _ _ _ => (1, None)) (fun _ _ => (mkProps false, None))
    (fun _ _ => None) (fun _ _ => None) 1000 (fun t => 5000 - t).

(** As [host_ok], with a compute system that does not start. *)
Definition host_start_fails : Host :=
  mkHost (fun _ => Some (errorString "start failed")) (fun _ _ _ => None) (fun _ _ _ => None)
    (fun _ _ _ useStderr _ =>
       (4, Some 1%nat, Some 2%nat, if useStderr then Some 3%nat else None, None))
    (fun _ _ _ => (1, None)) (fun _ _ => (mkProps false, None))
    (fun _ _ => None) (fun _ _ => None) 1000 (fun t => 5000 - t).

(** As [host_ok], with a process creation that fails. *)
Definition host_create_fails : Host :=
  mkHost (fun _ => None) (fun _ _ _ => None) (fun _ _ _ => None)
    (fun _ _ _ _ _ => (0, None, None, None, Some (errorString "create failed")))
    (fun _ _ _ => (1, None)) (fun _ _ => (mkProps false, None))
    (fun _ _ => None) (fun _ _ => None) 1000 (fun t => 5000 - t).

(** As [host_ok], with a shutdown that fails with [e]; termination succeeds. *)
Definition host_shutdown_fails (e : error) : Host :=
  mkHost (fun _ => None) (fun _ _ _ => Some e) (fun _ _ _ => None)
    (fun _ _ _ useStderr _ =>
       (4, Some 1%nat, Some 2%nat, if useStderr then Some 3%nat else None, None))
    (fun _ _ _ => (1, None)) (fun _ _ => (mkProps false, None))
    (fun _ _ => None) (fun _ _ => None) 1000 (fun t => 5000 - t).

(** As [host_ok], with a stream attachment that fails. *)
Definition host_attach_fails : Host :=
  mkHost (fun _ => None) (fun _ _ _ => None) (fun _ _ _ => None)
    (fun _ _ _ useStderr _ =>
       (4, Some 1%nat, Some 2%nat, if useStderr then Some 3%nat else None, None))
    (fun _ _ _ => (1, None)) (fun _ _ => (mkProps false, None))
    (fun _ _ => Some (errorString "attach failed")) (fun _ _ => None) 1000
    (fun t => 5000 - t).

(** A restart manager whose decision is true and comes with an error. *)
Definition rm_error : RestartManager :=
  mkRestartManager (fun _ _ _ => (true, None, Some (errorString "restart manager failed"))).

(** A restart manager that grants every restart; its channel delivers [w]. *)
Definition rm_grant (w : option error) : RestartManager :=
  mkRestartManager (fun _ _ _ => (true, w, None)).

Definition sample_container (rm : option RestartManager) (opts : list CreateOption)
    (manualStop : bool) : container :=
  mkContainer "c1" "c1" 4 rm false 1000 opts (mkSpec (sample_process false)) manualStop.

(** What [setupEnvironmentVariables] stands for at the sample inputs. *)
Definition sample_env (a : list string) : list (string * string) := [("A", "1")].

Section Model.

(** Declared in other files of the package: the Win32 number
    [ErrorBadPathname], the name of the init process, and two helpers. *)
Variable ErrorBadPathname : Z.
Variable InitFriendlyName : string.
Variable setupEnvironmentVariables : list string -> list (string * string).
Variable openReaderFromPipe : handle -> handle.

Variable host : Host.

(** ** start *)

Definition isServicing (option : CreateOption) : bool :=
  match option with
  | ServicingOption IsServicing => IsServicing
  | _ => false
  end.

(** The body of the servicing branch (lines 52-62). *)
Definition start_servicing (ctr : container) : M (option error) :=
  let shutdownTimeout := 5 * 60 * 1000 in
  let terminateTimeout := 1 * 60 * 1000 in
  err <- emit (EvShutdownComputeSystem (containerID ctr) shutdownTimeout "")
           (ShutdownComputeSystem host (containerID ctr) shutdownTimeout "") ;;
  match err with
  | Some _ =>
      log LError "Failed during cleanup of servicing container: %s" ;;;
      err2 <- emit (EvTerminateComputeSystem (containerID ctr) terminateTimeout "")
                (TerminateComputeSystem host (containerID ctr) terminateTimeout "") ;;
      when (negb (is_nil err2))
        (log LError "Failed to terminate container %s after shutdown failure: %q") ;;;
      ret err
  | None => ret None
  end.

(** Lines 66-74. *)
Definition createProcessParms (ctr : container) : CreateProcessParams :=
  let p := spec_Process (ociSpec ctr) in
  mkParams (Terminal p) (Cwd p) (InitialConsoleSize p)
    (setupEnvironmentVariables (Env p)) (String.concat " " (Args p)).

(** Lines 76-133: the path that creates the init process. *)
Definition start_process (ctr : container) : M (option error * container) :=
  let p := spec_Process (ociSpec ctr) in
  r <- emit (EvCreateProcessInComputeSystem (containerID ctr) true true
               (negb (Terminal p)) (createProcessParms ctr))
         (CreateProcessInComputeSystem host (containerID ctr) true true
            (negb (Terminal p)) (createProcessParms ctr)) ;;
  let '(pid, stdin, stdout, stderr, err) := r in
  match err with
  | Some _ =>
      log LError "CreateProcessInComputeSystem() failed %s" ;;;
      err2 <- emit (EvTerminateComputeSystem (containerID ctr) hcsshim.TimeoutInfinite
                      "CreateProcessInComputeSystem failed")
                (TerminateComputeSystem host (containerID ctr) hcsshim.TimeoutInfinite
                   "CreateProcessInComputeSystem failed") ;;
      (if is_nil err2
       then log LDebug
              "Cleaned up after failed CreateProcessInComputeSystem by calling TerminateComputeSystem"
       else log LWarn
              "Failed to TerminateComputeSystem after a failed CreateProcessInComputeSystem. Ignoring this.") ;;;
      ret (err, ctr)
  | None =>
      let ctr := set_startedAt ctr (Now host) in
      let iopipe :=
        mkIOPipe stdin (option_map openReaderFromPipe stdout)
          (option_map openReaderFromPipe stderr) (Terminal p) in
      log LDebug "Process started - PID %d" ;;;
      let ctr := set_systemPid ctr (uint32 pid) in
      emit (EvGoWaitExit pid InitFriendlyName true) tt ;;;
      emit (EvAppendContainer (containerID ctr)) tt ;;;
      err <- emit (EvAttachStreams (containerID ctr) iopipe)
               (AttachStreams host (containerID ctr) iopipe) ;;
      match err with
      | Some _ => ret (err, ctr)
      | None =>
          let si := mkStateInfo StateStart (systemPid ctr) 0 "" false in
          err <- emit (EvStateChanged (containerID ctr) si)
                   (StateChanged host (containerID ctr) si) ;;
          ret (err, ctr)
      end
  end.

(** The loop of lines 48-64: the first option that is a [ServicingOption]
    with [IsServicing] set ends [start]; without one the loop falls through. *)
Fixpoint start_options (ctr : container) (opts : list CreateOption)
    : M (option error * container) :=
  match opts with
  | [] => start_process ctr
  | option :: opts' =>
      if isServicing option
      then err <- start_servicing ctr ;; ret (err, ctr)
      else start_options ctr opts'
  end.

Definition start (ctr : container) : M (option error * container) :=
  log LDebug "Starting container " ;;;
  err <- emit (EvStartComputeSystem (containerID ctr))
           (StartComputeSystem host (containerID ctr)) ;;
  match err with
  | Some _ =>
      log LError "Failed to start compute system: %s" ;;;
      ret (err, ctr)
  | None => start_options ctr (options ctr)
  end.

(** ** waitExit *)

(** *** The shared store and the two threads

    After the [go func()] statement of line 207 the parent and the goroutine
    run concurrently; both hold [si] (the closure captures the variable, not
    a copy) and [ctr].  A configuration is the shared store with one
    program counter per thread.  The goroutine's local [err] travels with
    its program counter. *)

Inductive mainpc : Type :=
| MCheck       (* line 226: if si.State == StateExit *)
| MDelete      (* line 227: deleteContainer *)
| MDebug       (* line 232 *)
| MNotify      (* line 233: StateChanged *)
| MLogErr      (* line 234 *)
| MCompleted   (* line 237 *)
| MReturn.     (* line 238 *)

Inductive gopc : Type :=
| GNone                        (* no goroutine was started *)
| GRecv (wait : option error)  (* line 208: err := <-wait *)
| GClear (err : option error)  (* line 209 *)
| GDelete (err : option error) (* line 210 *)
| GDowngrade (err : error)     (* line 212: si.State = StateExit *)
| GNotify (err : error)        (* line 213: StateChanged *)
| GLogInner (err : error)      (* line 214 *)
| GLogErr (err : error)        (* line 216 *)
| GCreate                      (* line 218: Create *)
| GDone.

Record config : Type := mkConfig {
  mpc : mainpc;
  gpc : gopc;
  c_si : StateInfo;
  c_ctr : container
}.

Definition step_main (c : config) : config * trace :=
  let '(mkConfig m g si ctr) := c in
  match m with
  | MCheck =>
      if State_eqb (si_State si) StateExit
      then (mkConfig MDelete g si ctr, [])
      else (mkConfig MDebug g si ctr, [])
  | MDelete => (mkConfig MDebug g si ctr, [EvDeleteContainer (friendlyName ctr)])
  | MDebug =>
      (mkConfig MNotify g si ctr, [EvLog LDebug "waitExit() calling backend.StateChanged %v"])
  | MNotify =>
      (mkConfig (if is_nil (StateChanged host (containerID ctr) si)
                 then MCompleted else MLogErr) g si ctr,
       [EvStateChanged (containerID ctr) si])
  | MLogErr => (mkConfig MCompleted g si ctr, [EvLog LError "%v"])
  | MCompleted => (mkConfig MReturn g si ctr, [EvLog LDebug "waitExit() completed OK"])
  | MReturn => (c, [])
  end.

Definition step_go (c : config) : config * trace :=
  let '(mkConfig m g si ctr) := c in
  match g with
  | GNone => (c, [])
  | GRecv wait => (mkConfig m (GClear wait) si ctr, [EvChanRecv wait])
  | GClear err => (mkConfig m (GDelete err) si (set_restarting ctr false), [])
  | GDelete err =>
      (mkConfig m (match err with Some e => GDowngrade e | None => GCreate end) si ctr,
       [EvDeleteContainer (friendlyName ctr)])
  | GDowngrade err => (mkConfig m (GNotify err) (set_State si StateExit) ctr, [])
  | GNotify err =>
      (mkConfig m (if is_nil (StateChanged host (containerID ctr) si)
                   then GLogErr err else GLogInner err) si ctr,
       [EvStateChanged (containerID ctr) si])
  | GLogInner err => (mkConfig m (GLogErr err) si ctr, [EvLog LError "%v"])
  | GLogErr err => (mkConfig m GDone si ctr, [EvLog LError "%v"])
  | GCreate =>
      (mkConfig m GDone si ctr, [EvCreate (containerID ctr) (ociSpec ctr) (options ctr)])
  | GDone => (c, [])
  end.

Definition main_done (c : config) : bool :=
  match mpc c with MReturn => true | _ => false end.

Definition go_done (c : config) : bool :=
  match gpc c with GNone | GDone => true | _ => false end.

Definition finished (c : config) : bool := main_done c && go_done c.

(** A schedule names the thread that takes each step ([true]: the parent).
    A thread that has ended is skipped, and when the schedule is used up the
    parent runs first.  Every interleaving of the two threads is the run of
    some schedule. *)
Definition main_turn (sched : list bool) (c : config) : bool :=
  if main_done c then false
  else if go_done c then true
  else match sched with [] => true | b :: _ => b end.

Definition step (sched : list bool) (c : config) : config * trace :=
  if main_turn sched c then step_main c else step_go c.

Fixpoint run (fuel : nat) (sched : list bool) (c : config) : M config :=
  match fuel with
  | O => ret c
  | S fuel' =>
      if finished c then ret c
      else
        let (c', t) := step sched c in
        let (t', c'') := run fuel' (tl sched) c' in
        (t ++ t', c'')
  end.

(** Six steps of the parent and eight of the goroutine at most. *)
Definition waitExit_fuel : nat := 14.

(** *** The sequential part, lines 141-222 *)

(** Line 146: [herr, ok := err.( *hcsshim.HcsError); ok && herr.Err != ERROR_BROKEN_PIPE] *)
Definition wait_error_warned (err : error) : bool :=
  match err with
  | HcsError _ herr => neq_errno herr syscall.ERROR_BROKEN_PIPE
  | _ => false
  end.

(** Lines 185-188: [!ok || (herr.Err != ... && herr.Err != ... && herr.Err != ...)] *)
Definition shutdown_error_escalates (err : error) : bool :=
  match err with
  | HcsError _ herr =>
      neq_errno herr hcsshim.ERROR_SHUTDOWN_IN_PROGRESS
      && neq_errno herr ErrorBadPathname
      && neq_errno herr syscall.ERROR_PATH_NOT_FOUND
  | _ => true
  end.

(** Lines 172-198. *)
Definition waitExit_teardown (ctr : container) (si : StateInfo) : M StateInfo :=
  let propertyCheckFlag := 1 in
  r <- emit (EvGetComputeSystemProperties (containerID ctr) (uint32 propertyCheckFlag))
         (GetComputeSystemProperties host (containerID ctr) (uint32 propertyCheckFlag)) ;;
  let (csProperties, err) := r in
  si <- (match err with
         | Some _ =>
             log LWarn "GetComputeSystemProperties failed (container may have been killed): %s" ;;;
             ret si
         | None => ret (set_UpdatePending si (AreUpdatesPending csProperties))
         end) ;;
  log LDebug "Shutting down container %s" ;;;
  let shutdownTimeout := 5 * 60 * 1000 in
  err <- emit (EvShutdownComputeSystem (containerID ctr) shutdownTimeout "waitExit")
           (ShutdownComputeSystem host (containerID ctr) shutdownTimeout "waitExit") ;;
  (match err with
   | Some e =>
       when (shutdown_error_escalates e)
         (log LDebug
            "waitExit - error from ShutdownComputeSystem on %s %v. Calling TerminateComputeSystem" ;;;
          err <- emit (EvTerminateComputeSystem (containerID ctr) shutdownTimeout "waitExit")
                   (TerminateComputeSystem host (containerID ctr) shutdownTimeout "waitExit") ;;
          if is_nil err
          then log LDebug
                 "Successful TerminateComputeSystem after failed ShutdownComputeSystem on %s in waitExit"
          else log LDebug "waitExit - ignoring error from TerminateComputeSystem %s %v")
   | None => log LDebug "Completed shutting down container %s"
   end) ;;;
  ret si.

(** Lines 200-222: the restart decision.  The result is the configuration in
    which the parent reaches line 226. *)
Definition waitExit_restart (ctr : container) (exitCode : Z) (si : StateInfo) : M config :=
  match (if negb (manualStopRequested ctr) then restartManager ctr else None) with
  | Some rm =>
      let executionDuration := Since host (startedAt ctr) in
      r <- emit (EvShouldRestart (uint32 exitCode) false executionDuration)
             (ShouldRestart rm (uint32 exitCode) false executionDuration) ;;
      let '(restart, wait, err) := r in
      match err with
      | Some _ => log LError "%v" ;;; ret (mkConfig MCheck GNone si ctr)
      | None =>
          if restart
          then emit EvGoFunc
                 (mkConfig MCheck (GRecv wait) (set_State si StateRestart)
                    (set_restarting ctr true))
          else ret (mkConfig MCheck GNone si ctr)
      end
  | None => ret (mkConfig MCheck GNone si ctr)
  end.

(** Lines 141-152: the blocking wait; the exit code is used whether or not
    the wait failed. *)
Definition waitExit_wait (ctr : container) (pid : Z) : M Z :=
  log LDebug "waitExit on pid" ;;;
  r <- emit (EvWaitForProcessInComputeSystem (containerID ctr) pid hcsshim.TimeoutInfinite)
         (WaitForProcessInComputeSystem host (containerID ctr) pid hcsshim.TimeoutInfinite) ;;
  let (exitCode, err) := r in
  when (match err with Some e => wait_error_warned e | None => false end)
    (log LWarn "WaitForProcessInComputeSystem failed (container may have been killed): %s") ;;;
  ret exitCode.

(** Lines 141-229, up to the point where the threads may interleave. *)
Definition waitExit_prefix (ctr : container) (pid : Z) (processFriendlyName : string)
    (isFirstProcessToStart : bool) : M config :=
  exitCode <- waitExit_wait ctr pid ;;
  let si := mkStateInfo StateExit pid (uint32 exitCode) processFriendlyName false in
  if negb isFirstProcessToStart
  then ret (mkConfig MDebug GNone (set_State si StateExitProcess) ctr)
  else
    si <- waitExit_teardown ctr si ;;
    waitExit_restart ctr exitCode si.

(** [waitExit] under a schedule: the events in the order they happen, and
    the final configuration.  The Go function returns nil on every path. *)
Definition waitExit (ctr : container) (pid : Z) (processFriendlyName : string)
    (isFirstProcessToStart : bool) (sched : list bool) : M config :=
  c <- waitExit_prefix ctr pid processFriendlyName isFirstProcessToStart ;;
  run waitExit_fuel sched c.

(** ** Definitions used by the statements *)

(** The steps each thread still has to take, at most. *)
Definition mrem (m : mainpc) : nat :=
  match m with
  | MCheck => 6 | MDelete => 5 | MDebug => 4 | MNotify => 3
  | MLogErr => 2 | MCompleted => 1 | MReturn => 0
  end.

Definition grem (g : gopc) : nat :=
  match g with
  | GNone => 0 | GRecv _ => 8 | GClear _ => 7 | GDelete _ => 6 | GDowngrade _ => 5
  | GNotify _ => 4 | GLogInner _ => 3 | GLogErr _ => 2 | GCreate => 1 | GDone => 0
  end.

Definition measure (c : config) : nat := (mrem (mpc c) + grem (gpc c))%nat.

(** The notifications each thread still has to send. *)
Definition mnotif (m : mainpc) : nat :=
  match m with
  | MCheck | MDelete | MDebug | MNotify => 1
  | _ => 0
  end.

Definition gnotif (g : gopc) : nat :=
  match g with
  | GRecv (Some _) | GClear (Some _) | GDelete (Some _) | GDowngrade _ | GNotify _ => 1
  | _ => 0
  end.

(** The events of the parent's tail, and those of either thread. *)
Definition main_event (e : event) : bool :=
  is_Log e || is_DeleteContainer e || is_StateChanged e.

Definition tail_event (e : event) : bool :=
  main_event e || is_ChanRecv e || is_Create e.

(** The events of the blocking wait and those of the teardown. *)
Definition wait_event (e : event) : bool :=
  match e with
  | EvLog _ _ | EvWaitForProcessInComputeSystem _ _ _ => true
  | _ => false
  end.

Definition teardown_event (e : event) : bool :=
  match e with
  | EvLog _ _ | EvGetComputeSystemProperties _ _
  | EvShutdownComputeSystem _ _ _ | EvTerminateComputeSystem _ _ _ => true
  | _ => false
  end.

(** The events of the restart decision. *)
Definition restart_event (e : event) : bool :=
  match e with
  | EvLog _ _ | EvShouldRestart _ _ _ | EvGoFunc => true
  | _ => false
  end.

(** The events of the sequential part of [waitExit]. *)
Definition prefix_event (e : event) : bool :=
  match e with
  | EvLog _ _ | EvWaitForProcessInComputeSystem _ _ _ | EvGetComputeSystemProperties _ _
  | EvShutdownComputeSystem _ _ _ | EvTerminateComputeSystem _ _ _
  | EvShouldRestart _ _ _ | EvGoFunc => true
  | _ => false
  end.

(** The goroutine has yet to deregister the container. *)
Definition delete_pending (g : gopc) : bool :=
  match g with
  | GRecv _ | GClear _ | GDelete _ => true
  | _ => false
  end.

(** The goroutine has yet to deregister the container and will then
    re-create it: its channel delivers no error. *)
Definition recreate_pending (g : gopc) : bool :=
  match g with
  | GRecv None | GClear None | GDelete None => true
  | _ => false
  end.

Definition exit_or_restart (si : StateInfo) : Prop :=
  si_State si = StateExit \/ si_State si = StateRestart.

(** The exit code that [waitExit] reads from the host. *)
Definition observed_exitCode (ctr : container) (pid : Z) : Z :=
  fst (WaitForProcessInComputeSystem host (containerID ctr) pid hcsshim.TimeoutInfinite).

(** The StateInfo that [waitExit] has built for an init process when it
    reaches the restart decision. *)
Definition exit_info (ctr : container) (pid : Z) (processFriendlyName : string) : StateInfo :=
  mkStateInfo StateExit pid (uint32 (observed_exitCode ctr pid)) processFriendlyName
    (match GetComputeSystemProperties host (containerID ctr) (uint32 1) with
     | (csProperties, None) => AreUpdatesPending csProperties
     | (_, Some _) => false
     end).

(** The first call that follows the teardown of an init process: the
    restart decision when it is taken, the deregistration otherwise. *)
Definition decision_call (ctr : container) (pid : Z) : event :=
  if negb (manualStopRequested ctr) && negb (is_nil (restartManager ctr))
  then EvShouldRestart (uint32 (observed_exitCode ctr pid)) false (Since host (startedAt ctr))
  else EvDeleteContainer (friendlyName ctr).

(** The restart manager is consulted and grants a restart: no manual stop
    was requested, a restart manager is set, and [ShouldRestart] answers
    true without an error.  The result is what its channel will deliver. *)
Definition restart_granted (ctr : container) (exitCode : Z) : option (option error) :=
  if manualStopRequested ctr then None
  else
    match restartManager ctr with
    | None => None
    | Some rm =>
        let '(restart, wait, err) :=
          ShouldRestart rm (uint32 exitCode) false (Since host (startedAt ctr)) in
        if is_nil err && restart then Some wait else None
    end.

(** A restart was granted and its channel delivers an error. *)
Definition restart_fails (ctr : container) (exitCode : Z) : bool :=
  match restart_granted ctr exitCode with
  | Some (Some _) => true
  | _ => false
  end.

(** The shutdown errors that do not lead to a termination, in the words of
    the claim: an HcsError that wraps shutdown-in-progress, bad-pathname or
    path-not-found. *)
Definition whitelisted (e : error) : bool :=
  match e with
  | HcsError _ (Errno n) =>
      (n =? hcsshim.ERROR_SHUTDOWN_IN_PROGRESS) || (n =? ErrorBadPathname)
      || (n =? syscall.ERROR_PATH_NOT_FOUND)
  | _ => false
  end.

(** What the host answers to the process-creation request of [start]. *)
Definition created_process (ctr : container)
    : Z * option handle * option handle * option handle * option error :=
  CreateProcessInComputeSystem host (containerID ctr) true true
    (negb (Terminal (spec_Process (ociSpec ctr)))) (createProcessParms ctr).

(** The IOPipe that [start] hands to the backend (lines 76, 85, 105-111). *)
Definition start_iopipe (ctr : container) : IOPipe :=
  let '(_, stdin, stdout, stderr, _) := created_process ctr in
  mkIOPipe stdin (option_map openReaderFromPipe stdout)
    (option_map openReaderFromPipe stderr) (Terminal (spec_Process (ociSpec ctr))).

(** The container as [start] leaves it once the process exists
    (lines 103 and 115). *)
Definition started (ctr : container) : container :=
  let '(pid, _, _, _, _) := created_process ctr in
  set_systemPid (set_startedAt ctr (Now host)) (uint32 pid).

(** The calls of [start], path by path. *)
Definition start_calls (ctr : container) : trace :=
  let id := containerID ctr in
  EvStartComputeSystem id ::
  match StartComputeSystem host id with
  | Some _ => []
  | None =>
      if existsb isServicing (options ctr)
      then EvShutdownComputeSystem id (5 * 60 * 1000) "" ::
           (if is_nil (ShutdownComputeSystem host id (5 * 60 * 1000) "") then []
            else [EvTerminateComputeSystem id (1 * 60 * 1000) ""])
      else
        EvCreateProcessInComputeSystem id true true
          (negb (Terminal (spec_Process (ociSpec ctr)))) (createProcessParms ctr) ::
        match created_process ctr with
        | (_, _, _, _, Some _) =>
            [EvTerminateComputeSystem id hcsshim.TimeoutInfinite
               "CreateProcessInComputeSystem failed"]
        | (pid, _, _, _, None) =>
            EvGoWaitExit pid InitFriendlyName true ::
            EvAppendContainer id ::
            EvAttachStreams id (start_iopipe ctr) ::
            (if is_nil (AttachStreams host id (start_iopipe ctr))
             then [EvStateChanged id
                     (mkStateInfo StateStart (uint32 pid) 0 "" false)]
             else [])
        end
  end.

(** The value and the container that [start] returns, path by path. *)
Definition start_outcome (ctr : container) : option error * container :=
  let id := containerID ctr in
  match StartComputeSystem host id with
  | Some e => (Some e, ctr)
  | None =>
      if existsb isServicing (options ctr)
      then (ShutdownComputeSystem host id (5 * 60 * 1000) "", ctr)
      else
        match created_process ctr with
        | (_, _, _, _, Some e) => (Some e, ctr)
        | (pid, _, _, _, None) =>
            match AttachStreams host id (start_iopipe ctr) with
            | Some e => (Some e, started ctr)
            | None =>
                (StateChanged host id (mkStateInfo StateStart (uint32 pid) 0 "" false),
                 started ctr)
            end
        end
  end.

(** The calls of the sequential part of [waitExit] for an init process, up
    to the restart decision. *)
Definition init_prefix_calls (ctr : container) (pid : Z) : trace :=
  let id := containerID ctr in
  [EvWaitForProcessInComputeSystem id pid hcsshim.TimeoutInfinite;
   EvGetComputeSystemProperties id (uint32 1);
   EvShutdownComputeSystem id (5 * 60 * 1000) "waitExit"]
  ++ match ShutdownComputeSystem host id (5 * 60 * 1000) "waitExit" with
     | Some e =>
         if whitelisted e then []
         else [EvTerminateComputeSystem id (5 * 60 * 1000) "waitExit"]
     | None => []
     end
  ++ (if negb (manualStopRequested ctr) && negb (is_nil (restartManager ctr))
      then [EvShouldRestart (uint32 (observed_exitCode ctr pid)) false
              (Since host (startedAt ctr))]
      else []).

(** The fields of a notification of [waitExit] that no path changes. *)
Definition exit_fields (ctr : container) (pid : Z) (processFriendlyName : string)
    (si : StateInfo) : Prop :=
  si_Pid si = pid /\
  si_ExitCode si = uint32 (observed_exitCode ctr pid) /\
  si_ProcessID si = processFriendlyName /\
  si_UpdatePending si =
    match GetComputeSystemProperties host (containerID ctr) (uint32 1) with
    | (csProperties, None) => AreUpdatesPending csProperties
    | (_, Some _) => false
    end.

(** An event that names a compute system or a registry key names those of
    [ctr]. *)
Definition own_event (ctr : container) (e : event) : Prop :=
  match event_container e with Some id => id = containerID ctr | None => True end /\
  match event_deregisters e with Some name => name = friendlyName ctr | None => True end.

(** The calls other than notifications: what [filter] keeps of a trace. *)
Definition other_call (e : event) : bool := negb (is_Log e || is_StateChanged e).

(** The goroutine will not reach [Create]. *)
Definition no_recreate (g : gopc) : bool :=
  match g with
  | GRecv None | GClear None | GDelete None | GCreate => false
  | _ => true
  end.

(** The container of a configuration, as the goroutine's progress decides
    it: [restarting] is set until line 209 clears it. *)
Definition container_at (ctr : container) (granted : bool) (c : config) : Prop :=
  if granted
  then match gpc c with
       | GNone => False
       | GRecv _ | GClear _ => c_ctr c = set_restarting ctr true
       | _ => c_ctr c = set_restarting ctr false
       end
  else gpc c = GNone /\ c_ctr c = ctr.

(** The goroutine is on the path that ends in the downgraded notification
    and has not sent it yet. *)
Definition downgrade_pending (c : config) : bool :=
  match gpc c with
  | GRecv (Some _) | GClear (Some _) | GDelete (Some _) | GDowngrade _ => true
  | GNotify _ => State_eqb (si_State (c_si c)) StateExit
  | _ => false
  end.

(** What the goroutine has yet to call when its channel delivers no error. *)
Definition recreate_calls (c : config) : trace :=
  let ctr := c_ctr c in
  match gpc c with
  | GRecv None =>
      [EvChanRecv None; EvDeleteContainer (friendlyName ctr);
       EvCreate (containerID ctr) (ociSpec ctr) (options ctr)]
  | GClear None | GDelete None =>
      [EvDeleteContainer (friendlyName ctr);
       EvCreate (containerID ctr) (ociSpec ctr) (options ctr)]
  | GCreate => [EvCreate (containerID ctr) (ociSpec ctr) (options ctr)]
  | _ => []
  end.

(** The notification the parent has yet to send. *)
Definition parent_notification (c : config) : list StateInfo :=
  match mpc c with
  | MCheck | MDelete | MDebug | MNotify => [c_si c]
  | _ => []
  end.

(** The goroutine is on the path that re-creates the container, or has
    ended it. *)
Definition recreate_path (g : gopc) : bool :=
  match g with
  | GRecv None | GClear None | GDelete None | GCreate | GDone => true
  | _ => false
  end.

(** ** Properties of the two-thread machine *)

Lemma run_S (fuel : nat) (sched : list bool) (c : config) :
  finished c = false ->
  run (S fuel) sched c =
  (snd (step sched c) ++ fst (run fuel (tl sched) (fst (step sched c))),
   snd (run fuel (tl sched) (fst (step sched c)))).
Proof.
  intros F. simpl. rewrite F. destruct (step sched c) as [c' t]. simpl.
  destruct (run fuel (tl sched) c'). reflexivity.
Qed.

Lemma run_done (fuel : nat) (sched : list bool) (c : config) :
  finished c = true -> run fuel sched c = ([], c).
Proof. intros F. destruct fuel; simpl; [|rewrite F]; reflexivity. Qed.

Lemma step_measure (sched : list bool) (c : config) :
  finished c = false -> (measure (fst (step sched c)) < measure c)%nat.
Proof.
  destruct c as [m g si ctr]. unfold step, main_turn, finished, main_done, go_done, measure.
  destruct m, g; simpl; intros F; try discriminate;
    repeat match goal with
           | |- context [match ?x with _ => _ end] => destruct x; simpl
           end; lia.
Qed.

Lemma measure_zero (c : config) : measure c = 0%nat -> finished c = true.
Proof.
  destruct c as [m g si ctr]. unfold measure, finished, main_done, go_done.
  destruct m, g; simpl; intros H; try discriminate; reflexivity.
Qed.

Lemma run_finished (fuel : nat) : forall (sched : list bool) (c : config),
  (measure c <= fuel)%nat -> finished (snd (run fuel sched c)) = true.
Proof.
  induction fuel as [|fuel IH]; intros sched c Hm.
  - simpl. apply measure_zero. lia.
  - destruct (finished c) eqn:F.
    + rewrite run_done by exact F. exact F.
    + rewrite run_S by exact F. simpl. apply IH.
      pose proof (step_measure sched c F). lia.
Qed.

Lemma notifications_app (t1 t2 : trace) :
  notifications (t1 ++ t2) = notifications t1 ++ notifications t2.
Proof.
  induction t1 as [|e t1 IH]; simpl; [reflexivity|].
  destruct e; simpl; rewrite ?IH; reflexivity.
Qed.

Lemma step_notifications (sched : list bool) (c : config) :
  (List.length (notifications (snd (step sched c)))
   + (mnotif (mpc (fst (step sched c))) + gnotif (gpc (fst (step sched c))))
   = mnotif (mpc c) + gnotif (gpc c))%nat.
Proof.
  destruct c as [m g si ctr]. unfold step, main_turn, main_done, go_done.
  destruct m, g; simpl;
    repeat match goal with
           | |- context [match ?x with _ => _ end] => destruct x; simpl
           end; reflexivity.
Qed.

Lemma finished_notifications (c : config) :
  finished c = true -> (mnotif (mpc c) + gnotif (gpc c) = 0)%nat.
Proof.
  destruct c as [m g si ctr]. unfold finished, main_done, go_done.
  destruct m, g; simpl; intros H; try discriminate; reflexivity.
Qed.

Lemma run_notifications (fuel : nat) : forall (sched : list bool) (c : config),
  (measure c <= fuel)%nat ->
  List.length (notifications (fst (run fuel sched c))) = (mnotif (mpc c) + gnotif (gpc c))%nat.
Proof.
  induction fuel as [|fuel IH]; intros sched c Hm.
  - simpl. symmetry. apply finished_notifications, measure_zero. lia.
  - destruct (finished c) eqn:F.
    + rewrite run_done by exact F. simpl. symmetry. apply finished_notifications, F.
    + rewrite run_S by exact F. simpl. rewrite notifications_app, length_app.
      rewrite IH by (pose proof (step_measure sched c F); lia).
      apply step_notifications.
Qed.

Ltac break_match :=
  repeat match goal with
         | |- context [match ?x with _ => _ end] => destruct x eqn:?; simpl
         end.

Lemma step_events (sched : list bool) (c : config) :
  forallb tail_event (snd (step sched c)) = true.
Proof.
  destruct c as [m g si ctr]. unfold step, main_turn, main_done, go_done.
  destruct m, g; simpl; break_match; reflexivity.
Qed.

Lemma step_events_main_only (sched : list bool) (c : config) :
  gpc c = GNone ->
  forallb main_event (snd (step sched c)) = true /\ gpc (fst (step sched c)) = GNone.
Proof.
  destruct c as [m g si ctr]. unfold step, main_turn, main_done, go_done. simpl.
  intros ->. destruct m; simpl; break_match; split; reflexivity.
Qed.

Lemma run_events (fuel : nat) : forall (sched : list bool) (c : config),
  forallb tail_event (fst (run fuel sched c)) = true.
Proof.
  induction fuel as [|fuel IH]; intros sched c; [reflexivity|].
  destruct (finished c) eqn:F.
  - rewrite run_done by exact F. reflexivity.
  - rewrite run_S by exact F. simpl. rewrite forallb_app, step_events, IH. reflexivity.
Qed.

Lemma run_events_main_only (fuel : nat) : forall (sched : list bool) (c : config),
  gpc c = GNone -> forallb main_event (fst (run fuel sched c)) = true.
Proof.
  induction fuel as [|fuel IH]; intros sched c Hg; [reflexivity|].
  destruct (finished c) eqn:F.
  - rewrite run_done by exact F. reflexivity.
  - rewrite run_S by exact F. simpl.
    destruct (step_events_main_only sched c Hg) as [He Hg'].
    rewrite forallb_app, He, IH by exact Hg'. reflexivity.
Qed.

Lemma never_of (q p : event -> bool) (tr : trace) :
  (forall e, q e = true -> p e = false) -> forallb q tr = true -> never p tr = true.
Proof.
  intros Hqp Hq. unfold never. apply forallb_forall. intros e He.
  rewrite forallb_forall in Hq. rewrite (Hqp e (Hq e He)). reflexivity.
Qed.

Lemma never_app (p : event -> bool) (t1 t2 : trace) :
  never p (t1 ++ t2) = never p t1 && never p t2.
Proof. apply forallb_app. Qed.

Lemma occurs_app (p : event -> bool) (t1 t2 : trace) :
  occurs p (t1 ++ t2) = occurs p t1 || occurs p t2.
Proof. apply existsb_app. Qed.

Lemma precedes_skip (p q : event -> bool) (t1 t2 : trace) :
  never p t1 = true -> never q t1 = true ->
  precedes p q (t1 ++ t2) = precedes p q t2.
Proof.
  induction t1 as [|e t1 IH]; simpl; [reflexivity|].
  intros Hp Hq. apply andb_prop in Hp, Hq. destruct Hp as [Hp Hp'], Hq as [Hq Hq'].
  apply negb_true_iff in Hp, Hq. rewrite Hp, Hq. auto.
Qed.

Lemma precedes_left (p q : event -> bool) (t1 t2 : trace) :
  precedes p q t1 = true -> precedes p q (t1 ++ t2) = true.
Proof.
  induction t1 as [|e t1 IH]; simpl; [discriminate|].
  destruct (p e); [reflexivity|]. destruct (q e); [discriminate|]. exact IH.
Qed.

(** While the goroutine waits on the channel and [si] says Restart, the
    parent deletes nothing: the receive comes before any deregistration. *)
Lemma run_recv_before_delete (fuel : nat) : forall (sched : list bool) (c : config),
  (measure c <= fuel)%nat ->
  (exists w, gpc c = GRecv w) -> si_State (c_si c) = StateRestart -> mpc c <> MDelete ->
  precedes is_ChanRecv is_DeleteContainer (fst (run fuel sched c)) = true.
Proof.
  induction fuel as [|fuel IH]; intros sched c Hm [w Hg] Hs Hd.
  - exfalso. destruct c as [m g si ctr]. simpl in Hg. subst g.
    unfold measure in Hm. simpl in Hm. lia.
  - assert (F : finished c = false).
    { destruct c as [m g si ctr]. simpl in Hg. subst g.
      unfold finished, go_done. simpl. apply andb_false_r. }
    rewrite run_S by exact F. simpl.
    pose proof (step_measure sched c F) as Hlt.
    destruct c as [m g [st p ec pn up] ctr]. simpl in Hg, Hs, Hd. subst g st.
    unfold step, main_turn, main_done, go_done in *. simpl in *.
    destruct m; simpl in *; try (contradiction Hd; reflexivity);
      try reflexivity;
      destruct sched as [|[|] sched]; simpl in *; try reflexivity;
      try match goal with
          | H : context [is_nil ?x] |- _ => destruct (is_nil x)
          end;
      apply IH; simpl in *; try lia; try (eexists; reflexivity); try reflexivity;
      try discriminate.
Qed.

(** The goroutine deregisters the container before it logs, notifies or
    re-creates. *)
Lemma step_delete_pending (sched : list bool) (c : config) :
  finished c = false -> delete_pending (gpc c) = true ->
  occurs is_DeleteContainer (snd (step sched c)) = true \/
  delete_pending (gpc (fst (step sched c))) = true.
Proof.
  destruct c as [m g si ctr]. unfold step, main_turn, finished, main_done, go_done.
  destruct m, g; simpl; intros F Hg; try discriminate; break_match; auto.
Qed.

Lemma delete_pending_unfinished (c : config) :
  delete_pending (gpc c) = true -> finished c = false.
Proof.
  destruct c as [m g si ctr]. unfold finished, go_done. simpl.
  destruct g; simpl; intros H; try discriminate; apply andb_false_r.
Qed.

Lemma run_delete_occurs (fuel : nat) : forall (sched : list bool) (c : config),
  (measure c <= fuel)%nat -> delete_pending (gpc c) = true ->
  occurs is_DeleteContainer (fst (run fuel sched c)) = true.
Proof.
  induction fuel as [|fuel IH]; intros sched c Hm Hg.
  - pose proof (delete_pending_unfinished c Hg) as F.
    rewrite measure_zero in F by lia. discriminate.
  - pose proof (delete_pending_unfinished c Hg) as F.
    rewrite run_S by exact F. simpl. rewrite occurs_app.
    pose proof (step_measure sched c F) as Hlt.
    destruct (step_delete_pending sched c F Hg) as [H|H].
    + rewrite H. reflexivity.
    + rewrite IH by (try exact H; lia). apply orb_true_r.
Qed.

Lemma step_delete_before_create (sched : list bool) (c : config) :
  recreate_pending (gpc c) = true ->
  precedes is_DeleteContainer is_Create (snd (step sched c)) = true \/
  (never is_DeleteContainer (snd (step sched c)) = true /\
   never is_Create (snd (step sched c)) = true /\
   recreate_pending (gpc (fst (step sched c))) = true).
Proof.
  destruct c as [m g si ctr]. unfold step, main_turn, main_done, go_done.
  destruct m, g; simpl; intros Hg; try discriminate; break_match; try discriminate; auto.
Qed.

Lemma recreate_pending_unfinished (c : config) :
  recreate_pending (gpc c) = true -> finished c = false.
Proof.
  destruct c as [m g si ctr]. unfold finished, go_done. simpl.
  destruct g; simpl; intros H; try discriminate; apply andb_false_r.
Qed.

Lemma run_delete_before_create (fuel : nat) : forall (sched : list bool) (c : config),
  (measure c <= fuel)%nat -> recreate_pending (gpc c) = true ->
  precedes is_DeleteContainer is_Create (fst (run fuel sched c)) = true.
Proof.
  induction fuel as [|fuel IH]; intros sched c Hm Hg.
  - pose proof (recreate_pending_unfinished c Hg) as F.
    rewrite measure_zero in F by lia. discriminate.
  - pose proof (recreate_pending_unfinished c Hg) as F.
    rewrite run_S by exact F. simpl.
    pose proof (step_measure sched c F) as Hlt.
    destruct (step_delete_before_create sched c Hg) as [H|[H1 [H2 H3]]].
    + apply precedes_left, H.
    + rewrite precedes_skip by assumption. apply IH; [lia|exact H3].
Qed.

Lemma step_states (sched : list bool) (c : config) :
  exit_or_restart (c_si c) ->
  Forall exit_or_restart (notifications (snd (step sched c))) /\
  exit_or_restart (c_si (fst (step sched c))).
Proof.
  destruct c as [m g si ctr]. unfold step, main_turn, main_done, go_done. simpl.
  intros Hs.
  assert (He : exit_or_restart (set_State si StateExit)) by (left; reflexivity).
  destruct m, g; simpl;
    try destruct (State_eqb (si_State si) StateExit);
    try destruct sched as [|[|] sched]; simpl;
    (split; [first [apply Forall_nil | apply Forall_cons; [assumption|apply Forall_nil]]
            | assumption]).
Qed.

Lemma run_states (fuel : nat) : forall (sched : list bool) (c : config),
  exit_or_restart (c_si c) ->
  Forall exit_or_restart (notifications (fst (run fuel sched c))).
Proof.
  induction fuel as [|fuel IH]; intros sched c Hs; [constructor|].
  destruct (finished c) eqn:F.
  - rewrite run_done by exact F. constructor.
  - rewrite run_S by exact F. simpl. rewrite notifications_app.
    destruct (step_states sched c Hs) as [H1 H2].
    apply Forall_app. split; [exact H1|apply IH, H2].
Qed.

(** Without a goroutine the schedule has no say: the parent deregisters the
    container when [si] says Exit, notifies once and returns. *)
Lemma run_main_only (sched : list bool) (si : StateInfo) (ctr : container) :
  fst (run waitExit_fuel sched (mkConfig MCheck GNone si ctr)) =
  (if State_eqb (si_State si) StateExit then [EvDeleteContainer (friendlyName ctr)] else [])
  ++ [EvLog LDebug "waitExit() calling backend.StateChanged %v";
      EvStateChanged (containerID ctr) si]
  ++ (if is_nil (StateChanged host (containerID ctr) si) then [] else [EvLog LError "%v"])
  ++ [EvLog LDebug "waitExit() completed OK"].
Proof.
  unfold waitExit_fuel. cbn.
  destruct (State_eqb (si_State si) StateExit); cbn;
    destruct (is_nil (StateChanged host (containerID ctr) si)); reflexivity.
Qed.

Lemma run_exec_only (sched : list bool) (si : StateInfo) (ctr : container) :
  fst (run waitExit_fuel sched (mkConfig MDebug GNone si ctr)) =
  [EvLog LDebug "waitExit() calling backend.StateChanged %v";
   EvStateChanged (containerID ctr) si]
  ++ (if is_nil (StateChanged host (containerID ctr) si) then [] else [EvLog LError "%v"])
  ++ [EvLog LDebug "waitExit() completed OK"].
Proof.
  unfold waitExit_fuel. cbn.
  destruct (is_nil (StateChanged host (containerID ctr) si)); reflexivity.
Qed.

(** ** Properties of start *)

Lemma start_options_servicing (ctr : container) (opts : list CreateOption) :
  existsb isServicing opts = true ->
  start_options ctr opts = (err <- start_servicing ctr ;; ret (err, ctr)).
Proof.
  induction opts as [|o opts IH]; simpl; [discriminate|].
  destruct (isServicing o); simpl; auto.
Qed.

Lemma start_options_plain (ctr : container) (opts : list CreateOption) :
  existsb isServicing opts = false ->
  start_options ctr opts = start_process ctr.
Proof.
  induction opts as [|o opts IH]; simpl; [reflexivity|].
  destruct (isServicing o); simpl; [discriminate|auto].
Qed.

Lemma fst_bind {A B : Type} (m : M A) (k : A -> M B) :
  fst (bind m k) = fst m ++ fst (k (snd m)).
Proof. unfold bind. destruct m as [t a]. simpl. destruct (k a). reflexivity. Qed.

Lemma snd_bind {A B : Type} (m : M A) (k : A -> M B) :
  snd (bind m k) = snd (k (snd m)).
Proof. unfold bind. destruct m as [t a]. simpl. destruct (k a). reflexivity. Qed.

Ltac mstep :=
  repeat (progress (rewrite ?fst_bind, ?snd_bind; cbn [fst snd emit log ret app])).

Lemma start_trace (ctr : container) :
  fst (start ctr) =
  [EvLog LDebug "Starting container "; EvStartComputeSystem (containerID ctr)] ++
  match StartComputeSystem host (containerID ctr) with
  | Some _ => [EvLog LError "Failed to start compute system: %s"]
  | None => fst (start_options ctr (options ctr))
  end.
Proof.
  unfold start. rewrite !fst_bind. simpl.
  destruct (StartComputeSystem host (containerID ctr)); reflexivity.
Qed.

Lemma start_result (ctr : container) :
  snd (start ctr) =
  match StartComputeSystem host (containerID ctr) with
  | Some e => (Some e, ctr)
  | None => snd (start_options ctr (options ctr))
  end.
Proof.
  unfold start. rewrite !snd_bind. simpl.
  destruct (StartComputeSystem host (containerID ctr)); reflexivity.
Qed.

Lemma servicing_option_found (opts : list CreateOption) :
  In (ServicingOption true) opts -> existsb isServicing opts = true.
Proof.
  intros H. apply existsb_exists. exists (ServicingOption true). split; [exact H|reflexivity].
Qed.

(** C4. A [start] whose options hold a servicing option never asks for a
    process, never hands an IOPipe to the backend and never launches
    [waitExit]; once the compute system is up, its calls are the shutdown,
    then the termination when the shutdown failed, and the value returned is
    the answer of the shutdown whatever the termination answered. *)
Theorem start_servicing_path (ctr : container) :
  In (ServicingOption true) (options ctr) ->
  let tr := fst (start ctr) in
  let id := containerID ctr in
  never is_CreateProcess tr = true /\
  never is_AttachStreams tr = true /\
  never is_GoWaitExit tr = true /\
  hd_error (calls tr) = Some (EvStartComputeSystem id) /\
  (StartComputeSystem host id = None ->
   calls tr =
     EvStartComputeSystem id :: EvShutdownComputeSystem id (5 * 60 * 1000) "" ::
     (if is_nil (ShutdownComputeSystem host id (5 * 60 * 1000) "") then []
      else [EvTerminateComputeSystem id (1 * 60 * 1000) ""]) /\
   fst (snd (start ctr)) = ShutdownComputeSystem host id (5 * 60 * 1000) "").
Proof.
  intros Hin. apply servicing_option_found in Hin.
  cbv zeta. rewrite start_trace, start_result.
  destruct (StartComputeSystem host (containerID ctr)) as [e|] eqn:Hs.
  - repeat split; intros; discriminate.
  - rewrite (start_options_servicing ctr _ Hin).
    unfold start_servicing. simpl.
    destruct (ShutdownComputeSystem host (containerID ctr) 300000 "") as [e|] eqn:Hd; simpl.
    + destruct (TerminateComputeSystem host (containerID ctr) 60000 ""); simpl;
        repeat split; reflexivity.
    + repeat split; reflexivity.
Qed.

(** C8. Without a servicing option and with the compute system up, a failed
    process creation is followed by one termination call with the reason
    [CreateProcessInComputeSystem failed]; [start] returns the creation
    error whatever the termination answered, a failed termination is logged
    as a warning, and neither [waitExit] is launched nor the container
    registered. *)
Theorem start_create_failure (ctr : container) (r : Z * option handle * option handle * option handle)
    (e : error) :
  existsb isServicing (options ctr) = false ->
  StartComputeSystem host (containerID ctr) = None ->
  CreateProcessInComputeSystem host (containerID ctr) true true
    (negb (Terminal (spec_Process (ociSpec ctr)))) (createProcessParms ctr) = (r, Some e) ->
  let tr := fst (start ctr) in
  let id := containerID ctr in
  calls tr =
    [EvStartComputeSystem id;
     EvCreateProcessInComputeSystem id true true
       (negb (Terminal (spec_Process (ociSpec ctr)))) (createProcessParms ctr);
     EvTerminateComputeSystem id hcsshim.TimeoutInfinite "CreateProcessInComputeSystem failed"] /\
  snd (start ctr) = (Some e, ctr) /\
  never is_GoWaitExit tr = true /\
  never is_AppendContainer tr = true /\
  (TerminateComputeSystem host id hcsshim.TimeoutInfinite "CreateProcessInComputeSystem failed"
     <> None ->
   In (EvLog LWarn
         "Failed to TerminateComputeSystem after a failed CreateProcessInComputeSystem. Ignoring this.")
      tr).
Proof.
  intros Hopt Hs Hc.
  cbv zeta. rewrite start_trace, start_result, Hs.
  rewrite (start_options_plain ctr _ Hopt).
  unfold start_process. simpl. rewrite Hc.
  destruct r as [[[pid stdin] stdout] stderr]. simpl.
  destruct (TerminateComputeSystem host (containerID ctr) hcsshim.TimeoutInfinite
              "CreateProcessInComputeSystem failed") as [e2|]; simpl.
  - repeat split; try reflexivity. intros _. simpl. tauto.
  - repeat split; try reflexivity. intros H. contradiction H. reflexivity.
Qed.

(** C9. Every process-creation request of [start] asks for stdin and
    stdout, and for stderr exactly when the process has no terminal; a
    [start] without a servicing option whose compute system came up makes
    exactly one such request. *)
Theorem start_create_request (ctr : container) :
  let tr := fst (start ctr) in
  let terminal := Terminal (spec_Process (ociSpec ctr)) in
  Forall (fun q => q = (true, true, negb terminal)) (create_requests tr) /\
  (existsb isServicing (options ctr) = false ->
   StartComputeSystem host (containerID ctr) = None ->
   create_requests tr = [(true, true, negb terminal)]).
Proof.
  assert (Hp : create_requests (fst (start_process ctr)) =
               [(true, true, negb (Terminal (spec_Process (ociSpec ctr))))]).
  { unfold start_process. simpl.
    destruct (CreateProcessInComputeSystem host (containerID ctr) true true
                (negb (Terminal (spec_Process (ociSpec ctr)))) (createProcessParms ctr))
      as [[[[pid stdin] stdout] stderr] [e|]]; simpl.
    - destruct (TerminateComputeSystem host (containerID ctr) hcsshim.TimeoutInfinite
                  "CreateProcessInComputeSystem failed"); reflexivity.
    - destruct (AttachStreams host (containerID ctr) _); reflexivity. }
  cbv zeta. rewrite start_trace.
  destruct (StartComputeSystem host (containerID ctr)) as [e|]; simpl.
  - split; [constructor|discriminate].
  - destruct (existsb isServicing (options ctr)) eqn:Hopt.
    + rewrite (start_options_servicing ctr _ Hopt). unfold start_servicing. simpl.
      split; [|discriminate].
      destruct (ShutdownComputeSystem host (containerID ctr) 300000 ""); simpl;
        [destruct (TerminateComputeSystem host (containerID ctr) 60000 "")|]; constructor.
    + rewrite (start_options_plain ctr _ Hopt). rewrite Hp.
      split; [repeat constructor|reflexivity].
Qed.

(** C10. When the compute system does not start, [start] returns that error
    at once: the start call is its only call (no termination, no process, no
    registration, no notification) and the container is left as it was. *)
Theorem start_compute_system_failure (ctr : container) (e : error) :
  StartComputeSystem host (containerID ctr) = Some e ->
  start ctr =
    ([EvLog LDebug "Starting container "; EvStartComputeSystem (containerID ctr);
      EvLog LError "Failed to start compute system: %s"], (Some e, ctr)) /\
  calls (fst (start ctr)) = [EvStartComputeSystem (containerID ctr)].
Proof.
  intros Hs. unfold start. simpl. rewrite Hs. simpl. split; reflexivity.
Qed.

(** ** Properties of waitExit *)

Lemma wait_result (ctr : container) (pid : Z) :
  snd (waitExit_wait ctr pid) = observed_exitCode ctr pid.
Proof.
  unfold waitExit_wait, observed_exitCode. mstep.
  destruct (WaitForProcessInComputeSystem host (containerID ctr) pid hcsshim.TimeoutInfinite)
    as [ec err]. mstep. reflexivity.
Qed.

Lemma wait_calls (ctr : container) (pid : Z) :
  calls (fst (waitExit_wait ctr pid)) =
  [EvWaitForProcessInComputeSystem (containerID ctr) pid hcsshim.TimeoutInfinite] /\
  forallb wait_event (fst (waitExit_wait ctr pid)) = true.
Proof.
  unfold waitExit_wait. mstep.
  destruct (WaitForProcessInComputeSystem host (containerID ctr) pid hcsshim.TimeoutInfinite)
    as [ec [e|]]; mstep; [destruct (wait_error_warned e)|]; split; reflexivity.
Qed.

Lemma teardown_result (ctr : container) (pid ec : Z) (name : string) :
  snd (waitExit_teardown ctr (mkStateInfo StateExit pid ec name false)) =
  mkStateInfo StateExit pid ec name
    (match GetComputeSystemProperties host (containerID ctr) (uint32 1) with
     | (csProperties, None) => AreUpdatesPending csProperties
     | (_, Some _) => false
     end).
Proof.
  unfold waitExit_teardown. mstep.
  destruct (GetComputeSystemProperties host (containerID ctr) (uint32 1)) as [props [e|]];
    mstep; reflexivity.
Qed.

(** The trace of the teardown: the property query, the shutdown, and the
    termination when the shutdown error escalates. *)
Lemma teardown_trace (ctr : container) (si : StateInfo) :
  exists pre,
    forallb is_Log pre = true /\
    fst (waitExit_teardown ctr si) =
    EvGetComputeSystemProperties (containerID ctr) (uint32 1) :: pre ++
    EvShutdownComputeSystem (containerID ctr) (5 * 60 * 1000) "waitExit" ::
    match ShutdownComputeSystem host (containerID ctr) (5 * 60 * 1000) "waitExit" with
    | None => [EvLog LDebug "Completed shutting down container %s"]
    | Some e =>
        if shutdown_error_escalates e
        then [EvLog LDebug
                "waitExit - error from ShutdownComputeSystem on %s %v. Calling TerminateComputeSystem";
              EvTerminateComputeSystem (containerID ctr) (5 * 60 * 1000) "waitExit";
              EvLog LDebug
                (if is_nil (TerminateComputeSystem host (containerID ctr) (5 * 60 * 1000)
                              "waitExit")
                 then "Successful TerminateComputeSystem after failed ShutdownComputeSystem on %s in waitExit"
                 else "waitExit - ignoring error from TerminateComputeSystem %s %v")]
        else []
    end.
Proof.
  unfold waitExit_teardown. mstep.
  destruct (GetComputeSystemProperties host (containerID ctr) (uint32 1)) as [props [e|]];
    mstep.
  - exists [EvLog LWarn "GetComputeSystemProperties failed (container may have been killed): %s";
            EvLog LDebug "Shutting down container %s"].
    split; [reflexivity|].
    destruct (ShutdownComputeSystem host (containerID ctr) (5 * 60 * 1000) "waitExit")
      as [e'|]; mstep;
      [unfold when; destruct (shutdown_error_escalates e'); mstep;
       [destruct (TerminateComputeSystem host (containerID ctr) (5 * 60 * 1000) "waitExit");
        mstep|]|]; reflexivity.
  - exists [EvLog LDebug "Shutting down container %s"].
    split; [reflexivity|].
    destruct (ShutdownComputeSystem host (containerID ctr) (5 * 60 * 1000) "waitExit")
      as [e'|]; mstep;
      [unfold when; destruct (shutdown_error_escalates e'); mstep;
       [destruct (TerminateComputeSystem host (containerID ctr) (5 * 60 * 1000) "waitExit");
        mstep|]|]; reflexivity.
Qed.

Lemma forallb_weaken (p q : event -> bool) (tr : trace) :
  (forall e, p e = true -> q e = true) -> forallb p tr = true -> forallb q tr = true.
Proof.
  intros Hpq Hp. rewrite forallb_forall in *. intros e He. apply Hpq, Hp, He.
Qed.

Ltac by_event :=
  let e := fresh "e" in
  intros e; destruct e; cbv; first [congruence | split; congruence].

Lemma teardown_events (ctr : container) (si : StateInfo) :
  forallb teardown_event (fst (waitExit_teardown ctr si)) = true.
Proof.
  destruct (teardown_trace ctr si) as [pre [Hpre ->]].
  simpl. rewrite forallb_app. simpl.
  assert (H : forallb teardown_event pre = true).
  { rewrite forallb_forall in *. intros e He. specialize (Hpre e He).
    destruct e; try discriminate; reflexivity. }
  rewrite H. simpl.
  destruct (ShutdownComputeSystem host (containerID ctr) 300000 "waitExit") as [e|];
    [destruct (shutdown_error_escalates e)|]; reflexivity.
Qed.

Lemma restart_result (ctr : container) (ec : Z) (si : StateInfo) :
  snd (waitExit_restart ctr ec si) =
  match restart_granted ctr ec with
  | Some w => mkConfig MCheck (GRecv w) (set_State si StateRestart) (set_restarting ctr true)
  | None => mkConfig MCheck GNone si ctr
  end.
Proof.
  unfold waitExit_restart, restart_granted.
  destruct (manualStopRequested ctr); cbn [negb]; [reflexivity|].
  destruct (restartManager ctr) as [rm|]; [|reflexivity].
  mstep.
  destruct (ShouldRestart rm (uint32 ec) false (Since host (startedAt ctr)))
    as [[restart w] [e|]]; mstep; [reflexivity|].
  destruct restart; reflexivity.
Qed.

Lemma restart_trace (ctr : container) (ec : Z) (si : StateInfo) :
  forallb restart_event (fst (waitExit_restart ctr ec si)) = true /\
  (manualStopRequested ctr = true -> fst (waitExit_restart ctr ec si) = []).
Proof.
  unfold waitExit_restart.
  destruct (manualStopRequested ctr); cbn [negb andb]; [split; reflexivity|].
  destruct (restartManager ctr) as [rm|]; [|split; [reflexivity|discriminate]].
  mstep.
  destruct (ShouldRestart rm (uint32 ec) false (Since host (startedAt ctr)))
    as [[restart w] [e|]]; mstep; [|destruct restart];
    (split; [reflexivity|discriminate]).
Qed.

Lemma waitExit_trace (ctr : container) (pid : Z) (name : string) (isFirst : bool)
    (sched : list bool) :
  fst (waitExit ctr pid name isFirst sched) =
  fst (waitExit_prefix ctr pid name isFirst)
  ++ fst (run waitExit_fuel sched (snd (waitExit_prefix ctr pid name isFirst))).
Proof. unfold waitExit. apply fst_bind. Qed.

Lemma waitExit_config (ctr : container) (pid : Z) (name : string) (isFirst : bool)
    (sched : list bool) :
  snd (waitExit ctr pid name isFirst sched) =
  snd (run waitExit_fuel sched (snd (waitExit_prefix ctr pid name isFirst))).
Proof. unfold waitExit. apply snd_bind. Qed.

Lemma prefix_init_trace (ctr : container) (pid : Z) (name : string) :
  fst (waitExit_prefix ctr pid name true) =
  fst (waitExit_wait ctr pid)
  ++ fst (waitExit_teardown ctr
            (mkStateInfo StateExit pid (uint32 (observed_exitCode ctr pid)) name false))
  ++ fst (waitExit_restart ctr (observed_exitCode ctr pid) (exit_info ctr pid name)).
Proof.
  unfold waitExit_prefix. rewrite fst_bind, wait_result. simpl.
  rewrite fst_bind, teardown_result. reflexivity.
Qed.

Lemma prefix_init_config (ctr : container) (pid : Z) (name : string) :
  snd (waitExit_prefix ctr pid name true) =
  match restart_granted ctr (observed_exitCode ctr pid) with
  | Some w =>
      mkConfig MCheck (GRecv w) (set_State (exit_info ctr pid name) StateRestart)
        (set_restarting ctr true)
  | None => mkConfig MCheck GNone (exit_info ctr pid name) ctr
  end.
Proof.
  unfold waitExit_prefix. rewrite snd_bind, wait_result. simpl.
  rewrite snd_bind, teardown_result. apply restart_result.
Qed.

Lemma prefix_exec (ctr : container) (pid : Z) (name : string) :
  waitExit_prefix ctr pid name false =
  (fst (waitExit_wait ctr pid),
   mkConfig MDebug GNone
     (mkStateInfo StateExitProcess pid (uint32 (observed_exitCode ctr pid)) name false) ctr).
Proof.
  unfold waitExit_prefix, bind. rewrite <- wait_result.
  destruct (waitExit_wait ctr pid) as [t ec]. simpl. rewrite app_nil_r. reflexivity.
Qed.

Lemma prefix_events (ctr : container) (pid : Z) (name : string) (isFirst : bool) :
  forallb prefix_event (fst (waitExit_prefix ctr pid name isFirst)) = true.
Proof.
  destruct isFirst.
  - rewrite prefix_init_trace, !forallb_app.
    rewrite (forallb_weaken wait_event prefix_event), (forallb_weaken teardown_event prefix_event),
      (forallb_weaken restart_event prefix_event);
      try reflexivity; try by_event.
    + apply restart_trace.
    + apply teardown_events.
    + apply wait_calls.
  - rewrite prefix_exec. simpl.
    apply (forallb_weaken wait_event prefix_event); [by_event|apply wait_calls].
Qed.

Lemma prefix_measure (ctr : container) (pid : Z) (name : string) (isFirst : bool) :
  (measure (snd (waitExit_prefix ctr pid name isFirst)) <= waitExit_fuel)%nat.
Proof.
  destruct isFirst.
  - rewrite prefix_init_config.
    destruct (restart_granted ctr (observed_exitCode ctr pid));
      unfold measure, waitExit_fuel; simpl; lia.
  - rewrite prefix_exec. unfold measure, waitExit_fuel. simpl. lia.
Qed.

Lemma notifications_none (q : event -> bool) (tr : trace) :
  (forall e, q e = true -> is_StateChanged e = false) ->
  forallb q tr = true -> notifications tr = [].
Proof.
  intros Hq. induction tr as [|e tr IH]; simpl; [reflexivity|].
  intros H. apply andb_prop in H. destruct H as [He Ht].
  specialize (Hq e He). destruct e; try discriminate; auto.
Qed.

Lemma occurs_notified (tr : trace) :
  notifications tr <> [] -> occurs is_StateChanged tr = true.
Proof.
  induction tr as [|e tr IH]; simpl; [congruence|].
  destruct e; simpl; auto.
Qed.

Lemma precedes_asym (p q : event -> bool) (tr : trace) :
  (forall e, p e = true -> q e = false) ->
  precedes p q tr = true -> precedes q p tr = false.
Proof.
  intros Hpq. induction tr as [|e tr IH]; simpl; [reflexivity|].
  destruct (p e) eqn:Hp.
  - rewrite (Hpq e Hp). reflexivity.
  - destruct (q e); [discriminate|exact IH].
Qed.

Lemma shutdown_timeouts_app (t1 t2 : trace) :
  shutdown_timeouts (t1 ++ t2) = shutdown_timeouts t1 ++ shutdown_timeouts t2.
Proof.
  induction t1 as [|e t1 IH]; simpl; [reflexivity|].
  destruct e; simpl; rewrite ?IH; reflexivity.
Qed.

Lemma terminate_timeouts_app (t1 t2 : trace) :
  terminate_timeouts (t1 ++ t2) = terminate_timeouts t1 ++ terminate_timeouts t2.
Proof.
  induction t1 as [|e t1 IH]; simpl; [reflexivity|].
  destruct e; simpl; rewrite ?IH; reflexivity.
Qed.

Lemma timeouts_none (q : event -> bool) (tr : trace) :
  (forall e, q e = true -> is_Shutdown e = false /\ is_Terminate e = false) ->
  forallb q tr = true -> shutdown_timeouts tr = [] /\ terminate_timeouts tr = [].
Proof.
  intros Hq. induction tr as [|e tr IH]; simpl; [split; reflexivity|].
  intros H. apply andb_prop in H. destruct H as [He Ht].
  destruct (Hq e He) as [H1 H2]. destruct e; try discriminate; auto.
Qed.

Lemma calls_app (t1 t2 : trace) : calls (t1 ++ t2) = calls t1 ++ calls t2.
Proof. apply filter_app. Qed.

Lemma calls_logs (tr : trace) : forallb is_Log tr = true -> calls tr = [].
Proof.
  induction tr as [|e tr IH]; simpl; [reflexivity|].
  intros H. apply andb_prop in H. destruct H as [He Ht].
  unfold calls in *. simpl. rewrite He. simpl. auto.
Qed.

Lemma run_main_only_config (sched : list bool) (si : StateInfo) (ctr : container) :
  snd (run waitExit_fuel sched (mkConfig MCheck GNone si ctr)) = mkConfig MReturn GNone si ctr.
Proof.
  unfold waitExit_fuel. cbn.
  destruct (State_eqb (si_State si) StateExit); cbn;
    destruct (is_nil (StateChanged host (containerID ctr) si)); reflexivity.
Qed.

(** The code's test is the complement of the whitelist. *)
Lemma escalates_whitelisted (e : error) :
  shutdown_error_escalates e = negb (whitelisted e).
Proof.
  destruct e as [n|t [n|t' e'|m]|m]; simpl; try reflexivity.
  rewrite !negb_orb. reflexivity.
Qed.

(** C1. An init-process exit is notified once by [waitExit] itself, with
    state Exit or Restart; when a restart was granted and its channel
    delivers an error the goroutine sends one more notification, so that two
    are sent in that case and one in every other, under every schedule, and
    both threads run to their end. *)
Theorem waitExit_notifications_sent (ctr : container) (pid : Z) (name : string)
    (sched : list bool) :
  let r := waitExit ctr pid name true sched in
  finished (snd r) = true /\
  List.length (notifications (fst r)) =
    (if restart_fails ctr (observed_exitCode ctr pid) then 2 else 1)%nat /\
  Forall exit_or_restart (notifications (fst r)).
Proof.
  cbv zeta. rewrite waitExit_trace, waitExit_config, notifications_app.
  rewrite (notifications_none prefix_event) by (try by_event; apply prefix_events).
  cbn [app]. split; [|split].
  - apply run_finished, prefix_measure.
  - rewrite run_notifications by apply prefix_measure.
    rewrite prefix_init_config. unfold restart_fails.
    destruct (restart_granted ctr (observed_exitCode ctr pid)) as [[e|]|]; reflexivity.
  - apply run_states. rewrite prefix_init_config.
    destruct (restart_granted ctr (observed_exitCode ctr pid)) as [w|];
      [right|left]; reflexivity.
Qed.

(** C2. When [manualStopRequested] is set at the restart decision of an
    init-process exit, [ShouldRestart] is not called, no goroutine is
    started, nothing is received or re-created, the one notification sent
    has state Exit and the [restarting] flag is left as it was, whether or
    not a restart manager is set. *)
Theorem waitExit_manual_stop (ctr : container) (pid : Z) (name : string) (sched : list bool) :
  manualStopRequested ctr = true ->
  let r := waitExit ctr pid name true sched in
  never is_ShouldRestart (fst r) = true /\
  never is_GoFunc (fst r) = true /\
  never is_ChanRecv (fst r) = true /\
  never is_Create (fst r) = true /\
  notifications (fst r) = [exit_info ctr pid name] /\
  restarting (c_ctr (snd r)) = restarting ctr.
Proof.
  intros Hstop. cbv zeta.
  assert (Hg : restart_granted ctr (observed_exitCode ctr pid) = None).
  { unfold restart_granted. rewrite Hstop. reflexivity. }
  rewrite waitExit_trace, waitExit_config, prefix_init_config, Hg, prefix_init_trace.
  destruct (restart_trace ctr (observed_exitCode ctr pid) (exit_info ctr pid name))
    as [_ Hnil].
  rewrite (Hnil Hstop), app_nil_r, run_main_only_config.
  pose proof (proj2 (wait_calls ctr pid)) as Hw.
  pose proof (teardown_events ctr
                (mkStateInfo StateExit pid (uint32 (observed_exitCode ctr pid)) name false))
    as Ht.
  pose proof (run_events_main_only waitExit_fuel sched
                (mkConfig MCheck GNone (exit_info ctr pid name) ctr) eq_refl) as Hr.
  repeat split.
  - rewrite !never_app, (never_of wait_event), (never_of teardown_event),
      (never_of main_event); try assumption; try by_event. reflexivity.
  - rewrite !never_app, (never_of wait_event), (never_of teardown_event),
      (never_of main_event); try assumption; try by_event. reflexivity.
  - rewrite !never_app, (never_of wait_event), (never_of teardown_event),
      (never_of main_event); try assumption; try by_event. reflexivity.
  - rewrite !never_app, (never_of wait_event), (never_of teardown_event),
      (never_of main_event); try assumption; try by_event. reflexivity.
  - rewrite !notifications_app.
    rewrite (notifications_none wait_event), (notifications_none teardown_event);
      try assumption; try by_event.
    rewrite run_main_only. simpl.
    destruct (is_nil (StateChanged host (containerID ctr) (exit_info ctr pid name)));
      reflexivity.
Qed.

(** C3. When a restart is granted, the container is not deregistered before
    the restart manager's channel has delivered: under every schedule the
    receive comes first, a deregistration follows it, and when the channel
    delivers no error the deregistration comes before the re-creation. *)
Theorem waitExit_restart_deregisters_after_wait (ctr : container) (pid : Z) (name : string)
    (sched : list bool) (w : option error) :
  restart_granted ctr (observed_exitCode ctr pid) = Some w ->
  let tr := fst (waitExit ctr pid name true sched) in
  precedes is_ChanRecv is_DeleteContainer tr = true /\
  precedes is_DeleteContainer is_ChanRecv tr = false /\
  occurs is_DeleteContainer tr = true /\
  (w = None -> precedes is_DeleteContainer is_Create tr = true).
Proof.
  intros Hg. cbv zeta.
  pose proof (prefix_events ctr pid name true) as Hp.
  pose proof (prefix_measure ctr pid name true) as Hm.
  assert (H1 : precedes is_ChanRecv is_DeleteContainer
                 (fst (waitExit ctr pid name true sched)) = true).
  { rewrite waitExit_trace.
    rewrite precedes_skip by (apply (never_of prefix_event); [by_event|exact Hp]).
    apply run_recv_before_delete; try exact Hm; rewrite prefix_init_config, Hg; simpl.
    - eexists; reflexivity.
    - reflexivity.
    - discriminate. }
  split; [exact H1|]. split; [|split].
  - apply precedes_asym; [by_event|exact H1].
  - rewrite waitExit_trace, occurs_app.
    rewrite run_delete_occurs; [apply orb_true_r|exact Hm|].
    rewrite prefix_init_config, Hg. reflexivity.
  - intros ->. rewrite waitExit_trace.
    rewrite precedes_skip by (apply (never_of prefix_event); [by_event|exact Hp]).
    apply run_delete_before_create; [exact Hm|].
    rewrite prefix_init_config, Hg. reflexivity.
Qed.

Lemma restart_first_call (ctr : container) (ec : Z) (si : StateInfo) :
  (exists t,
     fst (waitExit_restart ctr ec si) =
       EvShouldRestart (uint32 ec) false (Since host (startedAt ctr)) :: t /\
     negb (manualStopRequested ctr) && negb (is_nil (restartManager ctr)) = true) \/
  (fst (waitExit_restart ctr ec si) = [] /\
   negb (manualStopRequested ctr) && negb (is_nil (restartManager ctr)) = false /\
   restart_granted ctr ec = None).
Proof.
  unfold waitExit_restart, restart_granted.
  destruct (manualStopRequested ctr); cbn [negb andb]; [right; repeat split|].
  destruct (restartManager ctr) as [rm|]; cbn [is_nil negb]; [left|right; repeat split].
  mstep. eexists. split; reflexivity.
Qed.

Lemma waitExit_notified (ctr : container) (pid : Z) (name : string) (sched : list bool) :
  occurs is_StateChanged
    (fst (run waitExit_fuel sched (snd (waitExit_prefix ctr pid name true)))) = true.
Proof.
  apply occurs_notified. intros H.
  apply (f_equal (@List.length StateInfo)) in H.
  rewrite run_notifications in H by apply prefix_measure.
  rewrite prefix_init_config in H.
  destruct (restart_granted ctr (observed_exitCode ctr pid)); discriminate.
Qed.

(** C5. In the teardown of an init process, a shutdown that fails with an
    error outside the whitelist is followed by a termination call, which
    comes before any notification; a shutdown that fails with a whitelisted
    error is followed by no termination at all: the next call is the restart
    decision when one is taken and the deregistration otherwise, and the
    notification is sent. *)
Theorem waitExit_shutdown_failure (ctr : container) (pid : Z) (name : string)
    (sched : list bool) (e : error) :
  ShutdownComputeSystem host (containerID ctr) (5 * 60 * 1000) "waitExit" = Some e ->
  let tr := fst (waitExit ctr pid name true sched) in
  if whitelisted e
  then never is_Terminate tr = true /\
       occurs is_StateChanged tr = true /\
       exists pre post,
         tr = pre ++ EvShutdownComputeSystem (containerID ctr) (5 * 60 * 1000) "waitExit" :: post /\
         hd_error (calls post) = Some (decision_call ctr pid)
  else precedes is_Terminate is_StateChanged tr = true /\
       occurs is_StateChanged tr = true.
Proof.
  intros Hshut. cbv zeta.
  pose proof (waitExit_notified ctr pid name sched) as Hn.
  pose proof (proj2 (wait_calls ctr pid)) as Hw.
  rewrite waitExit_trace, prefix_init_trace.
  destruct (teardown_trace ctr
              (mkStateInfo StateExit pid (uint32 (observed_exitCode ctr pid)) name false))
    as [pre [Hpre Ht]].
  rewrite Ht, Hshut, escalates_whitelisted. clear Ht.
  set (ec := observed_exitCode ctr pid) in *.
  set (si := exit_info ctr pid name) in *.
  set (rt := fst (waitExit_restart ctr ec si)) in *.
  set (c := snd (waitExit_prefix ctr pid name true)) in *.
  destruct (whitelisted e); cbn [negb].
  - split; [|split].
    + rewrite !never_app. cbn [never forallb is_Terminate negb andb].
      fold (never is_Terminate (pre ++ [EvShutdownComputeSystem (containerID ctr)
                                          (5 * 60 * 1000) "waitExit"])).
      rewrite never_app.
      rewrite (never_of wait_event _ (fst (waitExit_wait ctr pid))),
        (never_of is_Log _ pre), (never_of restart_event _ rt),
        (never_of tail_event _ (fst (run waitExit_fuel sched c)));
        try assumption; try by_event.
      * reflexivity.
      * apply run_events.
      * apply restart_trace.
    + rewrite !occurs_app, Hn, !orb_true_r. reflexivity.
    + exists (fst (waitExit_wait ctr pid)
              ++ EvGetComputeSystemProperties (containerID ctr) (uint32 1) :: pre).
      exists (rt ++ fst (run waitExit_fuel sched c)).
      split.
      * rewrite <- !app_assoc. cbn [app]. rewrite <- !app_assoc. reflexivity.
      * unfold decision_call. fold ec.
        destruct (restart_first_call ctr ec si) as [[t [Hrt Hc]]|[Hrt [Hc Hg]]];
          fold rt in Hrt; rewrite Hrt, Hc.
        -- reflexivity.
        -- unfold c. rewrite prefix_init_config. fold ec. rewrite Hg.
           cbn [app]. fold si. rewrite run_main_only. reflexivity.
  - split.
    + rewrite <- !app_assoc.
      rewrite precedes_skip by (apply (never_of wait_event); [by_event|exact Hw]).
      cbn [app precedes is_Terminate is_StateChanged]. rewrite <- !app_assoc.
      rewrite precedes_skip by (apply (never_of is_Log); [by_event|exact Hpre]).
      reflexivity.
    + rewrite !occurs_app, Hn, !orb_true_r. reflexivity.
Qed.

(** C6. The exit of a process that is not the init process is notified
    once, with state ExitProcess; the wait and that notification are the
    only calls: no shutdown, no termination, no restart decision. *)
Theorem waitExit_exec_process (ctr : container) (pid : Z) (name : string) (sched : list bool) :
  let tr := fst (waitExit ctr pid name false sched) in
  let si := mkStateInfo StateExitProcess pid (uint32 (observed_exitCode ctr pid)) name false in
  calls tr =
    [EvWaitForProcessInComputeSystem (containerID ctr) pid hcsshim.TimeoutInfinite;
     EvStateChanged (containerID ctr) si] /\
  notifications tr = [si] /\
  never is_Shutdown tr = true /\
  never is_Terminate tr = true /\
  never is_ShouldRestart tr = true.
Proof.
  cbv zeta. rewrite waitExit_trace, prefix_exec. cbn [fst snd].
  destruct (wait_calls ctr pid) as [Hc Hw].
  pose proof (run_events_main_only waitExit_fuel sched
                (mkConfig MDebug GNone
                   (mkStateInfo StateExitProcess pid (uint32 (observed_exitCode ctr pid))
                      name false) ctr) eq_refl) as Hr.
  split; [|split; [|split; [|split]]].
  - rewrite calls_app, Hc, run_exec_only.
    destruct (is_nil (StateChanged host (containerID ctr) _)); reflexivity.
  - rewrite notifications_app, (notifications_none wait_event) by (try by_event; exact Hw).
    rewrite run_exec_only.
    destruct (is_nil (StateChanged host (containerID ctr) _)); reflexivity.
  - rewrite never_app, (never_of wait_event), (never_of main_event);
      try assumption; try by_event. reflexivity.
  - rewrite never_app, (never_of wait_event), (never_of main_event);
      try assumption; try by_event. reflexivity.
  - rewrite never_app, (never_of wait_event), (never_of main_event);
      try assumption; try by_event. reflexivity.
Qed.

Lemma start_process_terminate (ctr : container) :
  Forall (eq hcsshim.TimeoutInfinite) (terminate_timeouts (fst (start_process ctr))).
Proof.
  unfold start_process. mstep.
  destruct (CreateProcessInComputeSystem host (containerID ctr) true true
              (negb (Terminal (spec_Process (ociSpec ctr)))) (createProcessParms ctr))
    as [[[[pid stdin] stdout] stderr] [e|]]; mstep.
  - destruct (TerminateComputeSystem host (containerID ctr) hcsshim.TimeoutInfinite
                "CreateProcessInComputeSystem failed"); repeat constructor.
  - match goal with
    | |- context [AttachStreams host ?a ?b] => destruct (AttachStreams host a b)
    end; mstep; constructor.
Qed.

Lemma start_servicing_terminate (ctr : container) :
  Forall (eq (1 * 60 * 1000)) (terminate_timeouts (fst (start_servicing ctr))).
Proof.
  unfold start_servicing. mstep.
  destruct (ShutdownComputeSystem host (containerID ctr) (5 * 60 * 1000) "") as [e|]; mstep.
  - destruct (TerminateComputeSystem host (containerID ctr) (1 * 60 * 1000) "");
      repeat constructor.
  - constructor.
Qed.

(** C7. The shutdown of [waitExit] is called with 5 minutes and the
    termination that follows an escalating shutdown error with the same
    5 minutes; in [start] the termination of the servicing path is called
    with 1 minute and the termination after a failed process creation with
    [TimeoutInfinite]. *)
Theorem timeouts_used (ctr : container) (pid : Z) (name : string) (isFirst : bool)
    (sched : list bool) :
  let tr := fst (waitExit ctr pid name isFirst sched) in
  shutdown_timeouts tr = (if isFirst then [5 * 60 * 1000] else []) /\
  terminate_timeouts tr =
    (if isFirst
     then match ShutdownComputeSystem host (containerID ctr) (5 * 60 * 1000) "waitExit" with
          | Some e => if whitelisted e then [] else [5 * 60 * 1000]
          | None => []
          end
     else []) /\
  Forall (eq (if existsb isServicing (options ctr)
              then 1 * 60 * 1000 else hcsshim.TimeoutInfinite))
    (terminate_timeouts (fst (start ctr))).
Proof.
  cbv zeta.
  assert (Hrun : forall c,
             shutdown_timeouts (fst (run waitExit_fuel sched c)) = [] /\
             terminate_timeouts (fst (run waitExit_fuel sched c)) = []).
  { intros c. apply (timeouts_none tail_event); [by_event|apply run_events]. }
  assert (Hwait : shutdown_timeouts (fst (waitExit_wait ctr pid)) = [] /\
                  terminate_timeouts (fst (waitExit_wait ctr pid)) = []).
  { apply (timeouts_none wait_event); [by_event|apply wait_calls]. }
  split; [|split].
  - rewrite waitExit_trace, shutdown_timeouts_app, (proj1 (Hrun _)), app_nil_r.
    destruct isFirst.
    + rewrite prefix_init_trace, !shutdown_timeouts_app, (proj1 Hwait).
      destruct (timeouts_none restart_event
                  (fst (waitExit_restart ctr (observed_exitCode ctr pid)
                          (exit_info ctr pid name))))
        as [-> _]; [by_event|apply restart_trace|].
      destruct (teardown_trace ctr
                  (mkStateInfo StateExit pid (uint32 (observed_exitCode ctr pid)) name false))
        as [pre [Hpre ->]].
      cbn [shutdown_timeouts app]. rewrite shutdown_timeouts_app.
      destruct (timeouts_none is_Log pre) as [-> _]; [by_event|exact Hpre|].
      destruct (ShutdownComputeSystem host (containerID ctr) (5 * 60 * 1000) "waitExit")
        as [e|]; [destruct (shutdown_error_escalates e)|]; reflexivity.
    + rewrite prefix_exec. apply Hwait.
  - rewrite waitExit_trace, terminate_timeouts_app, (proj2 (Hrun _)), app_nil_r.
    destruct isFirst.
    + rewrite prefix_init_trace, !terminate_timeouts_app, (proj2 Hwait).
      destruct (timeouts_none restart_event
                  (fst (waitExit_restart ctr (observed_exitCode ctr pid)
                          (exit_info ctr pid name))))
        as [_ ->]; [by_event|apply restart_trace|].
      destruct (teardown_trace ctr
                  (mkStateInfo StateExit pid (uint32 (observed_exitCode ctr pid)) name false))
        as [pre [Hpre ->]].
      cbn [terminate_timeouts app]. rewrite terminate_timeouts_app.
      destruct (timeouts_none is_Log pre) as [_ ->]; [by_event|exact Hpre|].
      destruct (ShutdownComputeSystem host (containerID ctr) (5 * 60 * 1000) "waitExit")
        as [e|]; [rewrite escalates_whitelisted; destruct (whitelisted e)|]; reflexivity.
    + rewrite prefix_exec. apply Hwait.
  - rewrite start_trace. cbn [app terminate_timeouts].
    destruct (StartComputeSystem host (containerID ctr)) as [e|]; [constructor|].
    destruct (existsb isServicing (options ctr)) eqn:Hopt.
    + rewrite (start_options_servicing ctr _ Hopt), fst_bind.
      cbn [ret fst]. rewrite app_nil_r. apply start_servicing_terminate.
    + rewrite (start_options_plain ctr _ Hopt). apply start_process_terminate.
Qed.

(** ** Further properties of start *)

Lemma never_calls (p : event -> bool) (tr : trace) :
  (forall e, is_Log e = true -> p e = false) -> never p (calls tr) = never p tr.
Proof.
  intros Hp. induction tr as [|e tr IH]; [reflexivity|].
  unfold calls, never in *. simpl. destruct (is_Log e) eqn:He; simpl.
  - rewrite (Hp e He). simpl. exact IH.
  - rewrite IH. reflexivity.
Qed.

Lemma occurs_calls (p : event -> bool) (tr : trace) :
  (forall e, is_Log e = true -> p e = false) -> occurs p (calls tr) = occurs p tr.
Proof.
  intros Hp. induction tr as [|e tr IH]; [reflexivity|].
  unfold calls, occurs in *. simpl. destruct (is_Log e) eqn:He; simpl.
  - rewrite (Hp e He). simpl. exact IH.
  - rewrite IH. reflexivity.
Qed.

Lemma notifications_calls (tr : trace) : notifications (calls tr) = notifications tr.
Proof.
  induction tr as [|e tr IH]; [reflexivity|].
  destruct e; unfold calls in *; simpl; rewrite ?IH; reflexivity.
Qed.

Lemma monitors_calls (tr : trace) : monitors (calls tr) = monitors tr.
Proof.
  induction tr as [|e tr IH]; [reflexivity|].
  destruct e; unfold calls in *; simpl; rewrite ?IH; reflexivity.
Qed.

Lemma registrations_calls (tr : trace) : registrations (calls tr) = registrations tr.
Proof.
  induction tr as [|e tr IH]; [reflexivity|].
  destruct e; unfold calls in *; simpl; rewrite ?IH; reflexivity.
Qed.

Lemma start_process_calls (ctr : container) :
  calls (fst (start_process ctr)) =
  EvCreateProcessInComputeSystem (containerID ctr) true true
    (negb (Terminal (spec_Process (ociSpec ctr)))) (createProcessParms ctr) ::
  match created_process ctr with
  | (_, _, _, _, Some _) =>
      [EvTerminateComputeSystem (containerID ctr) hcsshim.TimeoutInfinite
         "CreateProcessInComputeSystem failed"]
  | (pid, _, _, _, None) =>
      EvGoWaitExit pid InitFriendlyName true ::
      EvAppendContainer (containerID ctr) ::
      EvAttachStreams (containerID ctr) (start_iopipe ctr) ::
      (if is_nil (AttachStreams host (containerID ctr) (start_iopipe ctr))
       then [EvStateChanged (containerID ctr)
               (mkStateInfo StateStart (uint32 pid) 0 "" false)]
       else [])
  end /\
  snd (start_process ctr) =
  match created_process ctr with
  | (_, _, _, _, Some e) => (Some e, ctr)
  | (pid, _, _, _, None) =>
      match AttachStreams host (containerID ctr) (start_iopipe ctr) with
      | Some e => (Some e, started ctr)
      | None =>
          (StateChanged host (containerID ctr)
             (mkStateInfo StateStart (uint32 pid) 0 "" false),
           started ctr)
      end
  end.
Proof.
  unfold start_process, start_iopipe, started, created_process. mstep.
  destruct (CreateProcessInComputeSystem host (containerID ctr) true true
              (negb (Terminal (spec_Process (ociSpec ctr)))) (createProcessParms ctr))
    as [[[[pid stdin] stdout] stderr] [e|]]; mstep.
  - destruct (TerminateComputeSystem host (containerID ctr) hcsshim.TimeoutInfinite
                "CreateProcessInComputeSystem failed"); split; reflexivity.
  - cbn [containerID set_systemPid set_startedAt systemPid].
    match goal with
    | |- context [AttachStreams host ?a ?b] => destruct (AttachStreams host a b)
    end; mstep; split; reflexivity.
Qed.

Lemma start_calls_eq (ctr : container) : calls (fst (start ctr)) = start_calls ctr.
Proof.
  rewrite start_trace. unfold start_calls. cbn [app calls filter is_Log negb].
  fold (calls (match StartComputeSystem host (containerID ctr) with
               | Some _ => [EvLog LError "Failed to start compute system: %s"]
               | None => fst (start_options ctr (options ctr))
               end)).
  f_equal.
  destruct (StartComputeSystem host (containerID ctr)) as [e|]; [reflexivity|].
  destruct (existsb isServicing (options ctr)) eqn:Hopt.
  - rewrite (start_options_servicing ctr _ Hopt). unfold start_servicing. mstep.
    destruct (ShutdownComputeSystem host (containerID ctr) (5 * 60 * 1000) "") as [e|];
      mstep; [|reflexivity].
    destruct (TerminateComputeSystem host (containerID ctr) (1 * 60 * 1000) "");
      reflexivity.
  - rewrite (start_options_plain ctr _ Hopt). apply start_process_calls.
Qed.

Lemma start_outcome_eq (ctr : container) : snd (start ctr) = start_outcome ctr.
Proof.
  rewrite start_result. unfold start_outcome.
  destruct (StartComputeSystem host (containerID ctr)) as [e|]; [reflexivity|].
  destruct (existsb isServicing (options ctr)) eqn:Hopt.
  - rewrite (start_options_servicing ctr _ Hopt). unfold start_servicing. mstep.
    destruct (ShutdownComputeSystem host (containerID ctr) (5 * 60 * 1000) "") as [e|];
      mstep; reflexivity.
  - rewrite (start_options_plain ctr _ Hopt). apply start_process_calls.
Qed.

(** X1. A [start] without a servicing option on which every call succeeds up
    to the stream attachment makes six calls in this order: start of the
    compute system, process creation, launch of the monitor for the host's
    pid as the init process, registration, stream attachment with the
    host's stdin and the wrapped stdout and stderr, and the Start
    notification carrying the pid as a uint32.  It returns what the
    notification answered, with the start time and the pid stored in the
    container. *)
Theorem start_success_path (ctr : container) (pid : Z) (stdin stdout stderr : option handle) :
  existsb isServicing (options ctr) = false ->
  StartComputeSystem host (containerID ctr) = None ->
  created_process ctr = (pid, stdin, stdout, stderr, None) ->
  let id := containerID ctr in
  let iopipe :=
    mkIOPipe stdin (option_map openReaderFromPipe stdout)
      (option_map openReaderFromPipe stderr) (Terminal (spec_Process (ociSpec ctr))) in
  let si := mkStateInfo StateStart (uint32 pid) 0 "" false in
  AttachStreams host id iopipe = None ->
  calls (fst (start ctr)) =
    [EvStartComputeSystem id;
     EvCreateProcessInComputeSystem id true true
       (negb (Terminal (spec_Process (ociSpec ctr)))) (createProcessParms ctr);
     EvGoWaitExit pid InitFriendlyName true;
     EvAppendContainer id;
     EvAttachStreams id iopipe;
     EvStateChanged id si] /\
  snd (start ctr) =
    (StateChanged host id si, set_systemPid (set_startedAt ctr (Now host)) (uint32 pid)).
Proof.
  intros Hopt Hs Hc id iopipe si Ha. subst id iopipe si.
  rewrite start_calls_eq, start_outcome_eq. unfold start_calls, start_outcome.
  unfold start_iopipe, started. rewrite Hs, Hopt, Hc, Ha. split; reflexivity.
Qed.

(** X2. When the stream attachment fails, [start] returns that error
    without notifying Start; the monitor launched before it keeps running
    and the container stays registered: [start] neither terminates the
    compute system nor deregisters the container. *)
Theorem start_attach_failure (ctr : container) (pid : Z) (stdin stdout stderr : option handle)
    (e : error) :
  existsb isServicing (options ctr) = false ->
  StartComputeSystem host (containerID ctr) = None ->
  created_process ctr = (pid, stdin, stdout, stderr, None) ->
  AttachStreams host (containerID ctr) (start_iopipe ctr) = Some e ->
  let tr := fst (start ctr) in
  fst (snd (start ctr)) = Some e /\
  notifications tr = [] /\
  monitors tr = [(pid, InitFriendlyName, true)] /\
  registrations tr = [containerID ctr] /\
  never is_Terminate tr = true /\
  never is_DeleteContainer tr = true.
Proof.
  intros Hopt Hs Hc Ha. cbv zeta.
  rewrite <- notifications_calls, <- monitors_calls, <- registrations_calls.
  rewrite <- (never_calls is_Terminate), <- (never_calls is_DeleteContainer) by by_event.
  rewrite start_calls_eq, start_outcome_eq. unfold start_calls, start_outcome.
  rewrite Hs, Hopt, Hc, Ha. repeat split; reflexivity.
Qed.

(** X3. A [start] that returns nil has not terminated the compute system;
    without a servicing option it has launched exactly one monitor, for the
    init process, registered the container once and sent exactly one
    notification, with state Start. *)
Theorem start_nil_return (ctr : container) :
  fst (snd (start ctr)) = None ->
  let tr := fst (start ctr) in
  never is_Terminate tr = true /\
  (existsb isServicing (options ctr) = false ->
   exists pid,
     monitors tr = [(pid, InitFriendlyName, true)] /\
     registrations tr = [containerID ctr] /\
     notifications tr = [mkStateInfo StateStart (uint32 pid) 0 "" false]).
Proof.
  cbv zeta.
  rewrite <- notifications_calls, <- monitors_calls, <- registrations_calls.
  rewrite <- (never_calls is_Terminate) by by_event.
  rewrite start_calls_eq, start_outcome_eq. unfold start_calls, start_outcome.
  destruct (StartComputeSystem host (containerID ctr)) as [e|]; [discriminate|].
  destruct (existsb isServicing (options ctr)).
  - cbn [fst]. intros ->. split; [reflexivity|discriminate].
  - destruct (created_process ctr) as [[[[pid stdin] stdout] stderr] [e|]];
      [discriminate|].
    destruct (AttachStreams host (containerID ctr) (start_iopipe ctr)) as [e|];
      [discriminate|].
    intros _. split; [reflexivity|]. intros _. exists pid. repeat split.
Qed.

(** X4. [start] changes the container only on the paths that launch the
    monitor, and there only the start time, set to the clock's reading, and
    the pid, set to the host's pid as a uint32; on every other path the
    container is returned as it was. *)
Theorem start_container_fields (ctr : container) :
  let tr := fst (start ctr) in
  let ctr' := snd (snd (start ctr)) in
  (monitors tr = [] /\ ctr' = ctr) \/
  (exists pid,
     monitors tr = [(pid, InitFriendlyName, true)] /\
     ctr' = set_systemPid (set_startedAt ctr (Now host)) (uint32 pid)).
Proof.
  cbv zeta. rewrite <- monitors_calls, start_calls_eq, start_outcome_eq.
  unfold start_calls, start_outcome, started.
  destruct (StartComputeSystem host (containerID ctr)) as [e|]; [left; split; reflexivity|].
  destruct (existsb isServicing (options ctr)).
  - left. split; [|reflexivity].
    destruct (is_nil (ShutdownComputeSystem host (containerID ctr) (5 * 60 * 1000) ""));
      reflexivity.
  - destruct (created_process ctr) as [[[[pid stdin] stdout] stderr] [e|]];
      [left; split; reflexivity|].
    right. exists pid.
    destruct (AttachStreams host (containerID ctr) (start_iopipe ctr));
      split; reflexivity.
Qed.

Lemma servicing_option_iff (opts : list CreateOption) :
  existsb isServicing opts = true <-> In (ServicingOption true) opts.
Proof.
  split; [|apply servicing_option_found].
  intros H. apply existsb_exists in H. destruct H as [o [Hin Ho]].
  destruct o as [[|]|name]; try discriminate. exact Hin.
Qed.

(** X5. Once the compute system is up, [start] takes one of two paths: it
    requests a shutdown exactly when some option is a [ServicingOption]
    whose flag is set, and it asks for a process exactly when there is none
    (no option, other options, or a [ServicingOption] whose flag is not
    set).  When the compute system did not start it does neither. *)
Theorem start_dispatch (ctr : container) :
  let tr := fst (start ctr) in
  (occurs is_Shutdown tr = true <->
   StartComputeSystem host (containerID ctr) = None /\
   In (ServicingOption true) (options ctr)) /\
  (occurs is_CreateProcess tr = true <->
   StartComputeSystem host (containerID ctr) = None /\
   ~ In (ServicingOption true) (options ctr)).
Proof.
  cbv zeta.
  rewrite <- (occurs_calls is_Shutdown), <- (occurs_calls is_CreateProcess) by by_event.
  rewrite start_calls_eq. unfold start_calls.
  rewrite <- servicing_option_iff.
  destruct (StartComputeSystem host (containerID ctr)) as [e|].
  - split; split; try discriminate; intros [H _]; discriminate.
  - destruct (existsb isServicing (options ctr)).
    + destruct (is_nil (ShutdownComputeSystem host (containerID ctr) (5 * 60 * 1000) ""));
        (split; split; try discriminate; try (intros _; split; reflexivity);
         intros [_ H]; contradiction H; reflexivity).
    + destruct (created_process ctr) as [[[[pid stdin] stdout] stderr] [e|]];
        [|destruct (is_nil (AttachStreams host (containerID ctr) (start_iopipe ctr)))];
        (split; split; try discriminate; try (intros [_ H]; discriminate);
         intros _; split; [reflexivity|discriminate]).
Qed.

(** X6. [start] sends at most one notification and its state is Start; it
    is sent exactly when the streams were attached, also when [start] then
    returns the error of the notification.  [start] never deregisters a
    container, never consults the restart manager and never re-creates. *)
Theorem start_notifications (ctr : container) :
  let tr := fst (start ctr) in
  (List.length (notifications tr) <= 1)%nat /\
  Forall (fun si => si_State si = StateStart) (notifications tr) /\
  (notifications tr <> [] <-> occurs is_AttachStreams tr = true /\
                              AttachStreams host (containerID ctr) (start_iopipe ctr) = None) /\
  never is_DeleteContainer tr = true /\
  never is_ShouldRestart tr = true /\
  never is_Create tr = true.
Proof.
  cbv zeta.
  rewrite <- notifications_calls, <- (occurs_calls is_AttachStreams) by by_event.
  rewrite <- (never_calls is_DeleteContainer), <- (never_calls is_ShouldRestart),
    <- (never_calls is_Create) by by_event.
  rewrite start_calls_eq. unfold start_calls.
  assert (Hno : forall (P : Prop), ([] : list StateInfo) <> [] <-> false = true /\ P).
  { intros P. split; [intros H; contradiction H; reflexivity|intros [H _]; discriminate]. }
  destruct (StartComputeSystem host (containerID ctr)) as [e|].
  - split; [simpl; lia|]. split; [constructor|]. split; [apply Hno|repeat split].
  - destruct (existsb isServicing (options ctr)).
    + destruct (is_nil (ShutdownComputeSystem host (containerID ctr) (5 * 60 * 1000) ""));
        (split; [simpl; lia|]; split; [constructor|]; split; [apply Hno|repeat split]).
    + destruct (created_process ctr) as [[[[pid stdin] stdout] stderr] [e|]].
      * split; [simpl; lia|]. split; [constructor|]. split; [apply Hno|repeat split].
      * destruct (AttachStreams host (containerID ctr) (start_iopipe ctr)) as [e|];
          simpl.
        -- split; [lia|]. split; [constructor|]. split; [|repeat split].
           split; [intros H; contradiction H; reflexivity|intros [_ H]; discriminate].
        -- split; [lia|]. split; [repeat constructor|]. split; [|repeat split].
           split; [intros _; split; reflexivity|intros _; discriminate].
Qed.

(** ** Further properties of waitExit *)

(** A reading of the trace that distributes over concatenation is decided
    step by step: it equals what an invariant says is still to come. *)
Lemma run_projection {X : Type} (F : trace -> list X) (P : config -> list X)
    (I : config -> Prop) :
  F [] = [] ->
  (forall t1 t2, F (t1 ++ t2) = F t1 ++ F t2) ->
  (forall sched c, I c -> finished c = false ->
     I (fst (step sched c)) /\ F (snd (step sched c)) ++ P (fst (step sched c)) = P c) ->
  (forall c, I c -> finished c = true -> P c = []) ->
  forall fuel sched c, I c -> (measure c <= fuel)%nat ->
    F (fst (run fuel sched c)) = P c.
Proof.
  intros Hnil Happ Hstep Hfin.
  induction fuel as [|fuel IH]; intros sched c Hi Hm.
  - simpl. rewrite Hnil. symmetry. apply Hfin; [exact Hi|]. apply measure_zero. lia.
  - destruct (finished c) eqn:Hf.
    + rewrite run_done by exact Hf. simpl. rewrite Hnil. symmetry. apply Hfin; assumption.
    + rewrite run_S by exact Hf. simpl. rewrite Happ.
      destruct (Hstep sched c Hi Hf) as [Hi' Heq].
      rewrite IH; [exact Heq|exact Hi'|].
      pose proof (step_measure sched c Hf). lia.
Qed.

(** An invariant of the steps holds at the end, and what it says of the
    events of a step holds of every event. *)
Lemma run_forall (Q : event -> Prop) (I : config -> Prop) :
  (forall sched c, I c -> I (fst (step sched c)) /\ Forall Q (snd (step sched c))) ->
  forall fuel sched c, I c ->
    Forall Q (fst (run fuel sched c)) /\ I (snd (run fuel sched c)).
Proof.
  intros Hstep.
  induction fuel as [|fuel IH]; intros sched c Hi.
  - simpl. split; [constructor|exact Hi].
  - destruct (finished c) eqn:Hf.
    + rewrite run_done by exact Hf. simpl. split; [constructor|exact Hi].
    + rewrite run_S by exact Hf. simpl.
      destruct (Hstep sched c Hi) as [Hi' Hq].
      destruct (IH (tl sched) _ Hi') as [Hq' Hi''].
      split; [apply Forall_app; split; assumption|exact Hi''].
Qed.

Lemma teardown_calls (ctr : container) (si : StateInfo) :
  calls (fst (waitExit_teardown ctr si)) =
  [EvGetComputeSystemProperties (containerID ctr) (uint32 1);
   EvShutdownComputeSystem (containerID ctr) (5 * 60 * 1000) "waitExit"]
  ++ match ShutdownComputeSystem host (containerID ctr) (5 * 60 * 1000) "waitExit" with
     | Some e =>
         if whitelisted e then []
         else [EvTerminateComputeSystem (containerID ctr) (5 * 60 * 1000) "waitExit"]
     | None => []
     end.
Proof.
  destruct (teardown_trace ctr si) as [pre [Hpre ->]].
  change (EvGetComputeSystemProperties (containerID ctr) (uint32 1) :: pre ++ ?l)
    with ([EvGetComputeSystemProperties (containerID ctr) (uint32 1)] ++ pre ++ l).
  rewrite !calls_app, (calls_logs pre Hpre).
  destruct (ShutdownComputeSystem host (containerID ctr) (5 * 60 * 1000) "waitExit") as [e|];
    [rewrite escalates_whitelisted; destruct (whitelisted e)|]; reflexivity.
Qed.

Lemma restart_calls (ctr : container) (ec : Z) (si : StateInfo) :
  calls (fst (waitExit_restart ctr ec si)) =
  (if negb (manualStopRequested ctr) && negb (is_nil (restartManager ctr))
   then [EvShouldRestart (uint32 ec) false (Since host (startedAt ctr))]
   else [])
  ++ (if is_nil (restart_granted ctr ec) then [] else [EvGoFunc]).
Proof.
  unfold waitExit_restart, restart_granted.
  destruct (manualStopRequested ctr); cbn [negb andb]; [reflexivity|].
  destruct (restartManager ctr) as [rm|]; [|reflexivity].
  mstep.
  destruct (ShouldRestart rm (uint32 ec) false (Since host (startedAt ctr)))
    as [[restart w] [e|]]; mstep; [|destruct restart]; reflexivity.
Qed.

Lemma prefix_calls (ctr : container) (pid : Z) (name : string) :
  calls (fst (waitExit_prefix ctr pid name true)) =
  init_prefix_calls ctr pid
  ++ (if is_nil (restart_granted ctr (observed_exitCode ctr pid)) then [] else [EvGoFunc]).
Proof.
  rewrite prefix_init_trace, !calls_app, teardown_calls, restart_calls.
  rewrite (proj1 (wait_calls ctr pid)). unfold init_prefix_calls.
  cbn [app]. rewrite <- !app_assoc. reflexivity.
Qed.

Lemma precedes_skip_into (p q : event -> bool) (t1 t2 : trace) :
  never p t1 = true -> never q t1 = true -> precedes p q t2 = true ->
  precedes p q (t1 ++ t2) = true.
Proof. intros Hp Hq H. rewrite precedes_skip by assumption. exact H. Qed.

Lemma precedes_calls (p q : event -> bool) (tr : trace) :
  (forall e, is_Log e = true -> p e = false) ->
  (forall e, is_Log e = true -> q e = false) ->
  precedes p q (calls tr) = precedes p q tr.
Proof.
  intros Hp Hq. induction tr as [|e tr IH]; [reflexivity|].
  unfold calls in *. simpl. destruct (is_Log e) eqn:He; simpl.
  - rewrite (Hp e He), (Hq e He). exact IH.
  - rewrite IH. reflexivity.
Qed.

Lemma filter_calls (q : event -> bool) (tr : trace) :
  (forall e, is_Log e = true -> q e = false) -> filter q (calls tr) = filter q tr.
Proof.
  intros Hq. induction tr as [|e tr IH]; [reflexivity|].
  unfold calls in *. simpl. destruct (is_Log e) eqn:He; simpl.
  - rewrite (Hq e He). exact IH.
  - rewrite IH. reflexivity.
Qed.

Lemma filter_none (q p : event -> bool) (tr : trace) :
  (forall e, q e = true -> p e = false) -> forallb q tr = true -> filter p tr = [].
Proof.
  intros Hqp. induction tr as [|e tr IH]; simpl; [reflexivity|].
  intros H. apply andb_prop in H. destruct H as [He Ht].
  rewrite (Hqp e He). auto.
Qed.

Lemma filter_all (q : event -> bool) (tr : trace) :
  forallb q tr = true -> filter q tr = tr.
Proof.
  induction tr as [|e tr IH]; simpl; [reflexivity|].
  intros H. apply andb_prop in H. destruct H as [He Ht].
  rewrite He, IH by exact Ht. reflexivity.
Qed.

Lemma Forall_calls (Q : event -> Prop) (tr : trace) :
  (forall e, is_Log e = true -> Q e) -> Forall Q (calls tr) -> Forall Q tr.
Proof.
  intros Hlog. induction tr as [|e tr IH]; [constructor|].
  unfold calls in *. simpl. destruct (is_Log e) eqn:He; simpl; intros H.
  - constructor; [apply Hlog, He|apply IH, H].
  - inversion H; subst. constructor; [assumption|apply IH; assumption].
Qed.

Lemma init_prefix_calls_other (ctr : container) (pid : Z) :
  forallb other_call (init_prefix_calls ctr pid) = true /\
  forallb prefix_event (init_prefix_calls ctr pid) = true.
Proof.
  unfold init_prefix_calls.
  destruct (ShutdownComputeSystem host (containerID ctr) (5 * 60 * 1000) "waitExit") as [e|];
    [destruct (whitelisted e)|];
    destruct (negb (manualStopRequested ctr) && negb (is_nil (restartManager ctr)));
    split; reflexivity.
Qed.

(** The calls of an init-process exit on which no restart is granted. *)
Lemma exit_path_calls (ctr : container) (pid : Z) (name : string) (sched : list bool) :
  restart_granted ctr (observed_exitCode ctr pid) = None ->
  calls (fst (waitExit ctr pid name true sched)) =
  init_prefix_calls ctr pid
  ++ [EvDeleteContainer (friendlyName ctr);
      EvStateChanged (containerID ctr) (exit_info ctr pid name)].
Proof.
  intros Hg.
  rewrite waitExit_trace, calls_app, prefix_calls, prefix_init_config, Hg, run_main_only.
  cbn [is_nil]. rewrite app_nil_r. f_equal.
  change (State_eqb (si_State (exit_info ctr pid name)) StateExit) with true.
  destruct (is_nil (StateChanged host (containerID ctr) (exit_info ctr pid name)));
    reflexivity.
Qed.

(** X7. When no restart is granted (manual stop requested, no restart
    manager, a refusal or an error of [ShouldRestart]), the exit of the init
    process ends with two calls under every schedule: the deregistration of
    the container under its friendly name, then the one notification, whose
    state is Exit. *)
Theorem waitExit_exit_path (ctr : container) (pid : Z) (name : string) (sched : list bool) :
  restart_granted ctr (observed_exitCode ctr pid) = None ->
  let tr := fst (waitExit ctr pid name true sched) in
  calls tr =
    init_prefix_calls ctr pid
    ++ [EvDeleteContainer (friendlyName ctr);
        EvStateChanged (containerID ctr) (exit_info ctr pid name)] /\
  si_State (exit_info ctr pid name) = StateExit /\
  precedes is_DeleteContainer is_StateChanged tr = true.
Proof.
  intros Hg. cbv zeta. pose proof (exit_path_calls ctr pid name sched Hg) as Hc.
  split; [exact Hc|]. split; [reflexivity|].
  assert (H : precedes is_DeleteContainer is_StateChanged
                (calls (fst (waitExit ctr pid name true sched))) = true).
  { rewrite Hc. apply precedes_skip_into.
    - apply (never_of prefix_event); [by_event|apply init_prefix_calls_other].
    - apply (never_of prefix_event); [by_event|apply init_prefix_calls_other].
    - reflexivity. }
  rewrite <- (precedes_calls is_DeleteContainer is_StateChanged) by by_event. exact H.
Qed.

Lemma notifications_forall (R : StateInfo -> Prop) (tr : trace) :
  Forall (fun e => match e with EvStateChanged _ si => R si | _ => True end) tr ->
  Forall R (notifications tr).
Proof.
  induction 1 as [|e tr He Ht IH]; simpl; [constructor|].
  destruct e; try exact IH. constructor; assumption.
Qed.

Lemma step_notification_inv (R : StateInfo -> Prop) (sched : list bool) (c : config) :
  (forall si, R si -> R (set_State si StateExit)) ->
  R (c_si c) ->
  R (c_si (fst (step sched c))) /\
  Forall (fun e => match e with EvStateChanged _ si => R si | _ => True end)
    (snd (step sched c)).
Proof.
  intros Hset. destruct c as [m g si ctr]. unfold step, main_turn, main_done, go_done.
  simpl. intros Hr.
  destruct m, g; simpl;
    try destruct (State_eqb (si_State si) StateExit);
    try destruct sched as [|[|] sched]; simpl;
    (split; [auto|repeat constructor; auto]).
Qed.

Lemma uint32_range (x : Z) : 0 <= uint32 x < 2 ^ 32.
Proof. unfold uint32. apply Z.mod_pos_bound. reflexivity. Qed.

(** X8. Every notification of an init-process exit, from the parent or from
    the goroutine and under every schedule, carries the pid and the process
    name that [waitExit] was given, the host's exit code converted to
    uint32 (so within 0 and 2^32 - 1, the code itself when it is already
    there), and the pending-updates flag of the property query, false when
    the query failed; only the state differs between them. *)
Theorem waitExit_notification_fields (ctr : container) (pid : Z) (name : string)
    (sched : list bool) :
  let tr := fst (waitExit ctr pid name true sched) in
  Forall (exit_fields ctr pid name) (notifications tr) /\
  Forall (fun si => 0 <= si_ExitCode si < 2 ^ 32) (notifications tr) /\
  (0 <= observed_exitCode ctr pid < 2 ^ 32 ->
   Forall (fun si => si_ExitCode si = observed_exitCode ctr pid) (notifications tr)).
Proof.
  cbv zeta.
  assert (H : Forall (exit_fields ctr pid name)
                (notifications (fst (waitExit ctr pid name true sched)))).
  { rewrite waitExit_trace, notifications_app.
    rewrite (notifications_none prefix_event) by (try by_event; apply prefix_events).
    cbn [app]. apply notifications_forall.
    apply (run_forall _ (fun c => exit_fields ctr pid name (c_si c))).
    - intros sched' c Hc. apply step_notification_inv; [|exact Hc].
      intros si Hsi. exact Hsi.
    - rewrite prefix_init_config.
      destruct (restart_granted ctr (observed_exitCode ctr pid));
        repeat split; reflexivity. }
  split; [exact H|]. split.
  - eapply Forall_impl; [|exact H]. intros si [_ [-> _]]. apply uint32_range.
  - intros Hr. eapply Forall_impl; [|exact H]. intros si [_ [-> _]].
    unfold uint32. apply Z.mod_small. exact Hr.
Qed.

Lemma step_recreate (sched : list bool) (c : config) :
  recreate_path (gpc c) = true /\ si_State (c_si c) = StateRestart /\ mpc c <> MDelete ->
  finished c = false ->
  (recreate_path (gpc (fst (step sched c))) = true /\
   si_State (c_si (fst (step sched c))) = StateRestart /\
   mpc (fst (step sched c)) <> MDelete) /\
  (notifications (snd (step sched c)) ++ parent_notification (fst (step sched c))
   = parent_notification c) /\
  (filter other_call (snd (step sched c)) ++ recreate_calls (fst (step sched c))
   = recreate_calls c).
Proof.
  destruct c as [m g [st p ec pn up] ctr].
  unfold step, main_turn, finished, main_done, go_done. simpl.
  intros [Hg [Hs Hd]] Hf. subst st.
  destruct m; try (contradiction Hd; reflexivity);
    destruct g as [|[e|]|[e|]|[e|]|e|e|e|e| |]; try discriminate; simpl;
    try destruct sched as [|[|] sched]; simpl;
    try destruct (is_nil (StateChanged host (containerID ctr) _));
    repeat split; try reflexivity; try discriminate.
Qed.

(** X9. When a restart is granted and its channel delivers no error, then
    under every schedule exactly one notification is sent, with state
    Restart, and the calls other than it are those of the teardown and of
    the restart decision, the launch of the goroutine, the receive, one
    deregistration and one [Create] with the container's id, spec and
    options, in this order. *)
Theorem waitExit_restart_success (ctr : container) (pid : Z) (name : string)
    (sched : list bool) :
  restart_granted ctr (observed_exitCode ctr pid) = Some None ->
  let tr := fst (waitExit ctr pid name true sched) in
  notifications tr = [set_State (exit_info ctr pid name) StateRestart] /\
  filter other_call tr =
    init_prefix_calls ctr pid
    ++ [EvGoFunc; EvChanRecv None; EvDeleteContainer (friendlyName ctr);
        EvCreate (containerID ctr) (ociSpec ctr) (options ctr)].
Proof.
  intros Hg. cbv zeta.
  pose proof (prefix_measure ctr pid name true) as Hm.
  pose proof (prefix_init_config ctr pid name) as Hc. rewrite Hg in Hc.
  set (inv := fun c : config =>
                recreate_path (gpc c) = true /\ si_State (c_si c) = StateRestart /\
                mpc c <> MDelete).
  assert (Hinv : inv (snd (waitExit_prefix ctr pid name true))).
  { rewrite Hc. repeat split. discriminate. }
  assert (Hfin : forall c, inv c -> finished c = true ->
                           parent_notification c = [] /\ recreate_calls c = []).
  { intros [m g si c'] _. unfold finished, main_done, go_done. simpl.
    destruct m, g; simpl; intros H; try discriminate; split; reflexivity. }
  rewrite waitExit_trace. split.
  - rewrite notifications_app.
    rewrite (notifications_none prefix_event) by (try by_event; apply prefix_events).
    cbn [app].
    rewrite (run_projection notifications parent_notification inv eq_refl notifications_app);
      try assumption.
    + rewrite Hc. reflexivity.
    + intros sched' c Hi Hf. destruct (step_recreate sched' c Hi Hf) as [H1 [H2 _]].
      split; assumption.
    + intros c Hi Hf. apply Hfin; assumption.
  - rewrite filter_app.
    rewrite <- (filter_calls other_call (fst (waitExit_prefix ctr pid name true)))
      by by_event.
    rewrite prefix_calls, Hg. cbn [is_nil].
    rewrite filter_app, (filter_all other_call (init_prefix_calls ctr pid))
      by apply init_prefix_calls_other.
    rewrite (run_projection (filter other_call) recreate_calls inv eq_refl
               (filter_app other_call)); try assumption.
    + rewrite Hc. rewrite <- app_assoc. reflexivity.
    + intros sched' c Hi Hf. destruct (step_recreate sched' c Hi Hf) as [H1 [_ H3]].
      split; assumption.
    + intros c Hi Hf. apply Hfin; assumption.
Qed.

Lemma set_State_exit (si : StateInfo) :
  State_eqb (si_State si) StateExit = true -> set_State si StateExit = si.
Proof. destruct si as [[| | |] p ec pn up]; simpl; intros H; try discriminate; reflexivity. Qed.

Lemma step_downgrade (base : StateInfo) (sched : list bool) (c : config) :
  set_State (c_si c) StateExit = base -> downgrade_pending c = true ->
  set_State (c_si (fst (step sched c))) StateExit = base /\
  (In base (notifications (snd (step sched c))) \/
   downgrade_pending (fst (step sched c)) = true).
Proof.
  destruct c as [m g si ctr]. unfold step, main_turn, main_done, go_done, downgrade_pending.
  simpl. intros Hb Hp.
  destruct g as [|[e|]|[e|]|[e|]|e|e|e|e| |]; try discriminate;
    destruct m; simpl;
    try destruct (State_eqb (si_State si) StateExit) eqn:Hs;
    try destruct sched as [|[|] sched]; simpl;
    try discriminate;
    try (split; [exact Hb|right; first [reflexivity|exact Hs]]);
    try (split; [exact Hb|left; left; rewrite <- Hb; symmetry; apply set_State_exit, Hs]);
    try (split; [rewrite <- Hb; destruct si; reflexivity|right; reflexivity]).
Qed.

Lemma downgrade_pending_unfinished (c : config) :
  downgrade_pending c = true -> finished c = false.
Proof.
  destruct c as [m g si ctr]. unfold finished, go_done, downgrade_pending. simpl.
  destruct g; simpl; intros H; try discriminate; apply andb_false_r.
Qed.

Lemma run_downgrade (base : StateInfo) (fuel : nat) : forall (sched : list bool) (c : config),
  (measure c <= fuel)%nat ->
  set_State (c_si c) StateExit = base -> downgrade_pending c = true ->
  In base (notifications (fst (run fuel sched c))).
Proof.
  induction fuel as [|fuel IH]; intros sched c Hm Hb Hp.
  - pose proof (downgrade_pending_unfinished c Hp) as F.
    rewrite measure_zero in F by lia. discriminate.
  - pose proof (downgrade_pending_unfinished c Hp) as F.
    rewrite run_S by exact F. simpl. rewrite notifications_app. apply in_or_app.
    pose proof (step_measure sched c F) as Hlt.
    destruct (step_downgrade base sched c Hb Hp) as [Hb' [H|H]].
    + left. exact H.
    + right. apply IH; [lia|exact Hb'|exact H].
Qed.

Lemma step_no_recreate (sched : list bool) (c : config) :
  no_recreate (gpc c) = true ->
  no_recreate (gpc (fst (step sched c))) = true /\
  Forall (fun e => is_Create e = false) (snd (step sched c)).
Proof.
  destruct c as [m g si ctr]. unfold step, main_turn, main_done, go_done. simpl.
  intros Hg.
  destruct g as [|[e|]|[e|]|[e|]|e|e|e|e| |]; try discriminate;
    destruct m; simpl;
    try destruct (State_eqb (si_State si) StateExit);
    try destruct sched as [|[|] sched]; simpl;
    try destruct (is_nil (StateChanged host (containerID ctr) _));
    (split; [reflexivity|repeat constructor]).
Qed.

Lemma never_forall (p : event -> bool) (tr : trace) :
  Forall (fun e => p e = false) tr -> never p tr = true.
Proof.
  induction 1 as [|e tr He Ht IH]; [reflexivity|].
  unfold never in *. simpl. rewrite He, IH. reflexivity.
Qed.

(** X10. When a restart is granted and its channel delivers an error, the
    container is never re-created, and under every schedule two
    notifications are sent, one of which is the Exit notification of the
    exit (the downgraded one). *)
Theorem waitExit_restart_failure (ctr : container) (pid : Z) (name : string)
    (sched : list bool) (e : error) :
  restart_granted ctr (observed_exitCode ctr pid) = Some (Some e) ->
  let tr := fst (waitExit ctr pid name true sched) in
  never is_Create tr = true /\
  In (exit_info ctr pid name) (notifications tr) /\
  List.length (notifications tr) = 2%nat.
Proof.
  intros Hg. cbv zeta.
  pose proof (prefix_measure ctr pid name true) as Hm.
  pose proof (prefix_init_config ctr pid name) as Hc. rewrite Hg in Hc.
  rewrite waitExit_trace. split; [|split].
  - rewrite never_app.
    rewrite (never_of prefix_event) by (try by_event; apply prefix_events).
    apply never_forall.
    apply (run_forall _ (fun c => no_recreate (gpc c) = true)).
    + intros sched' c Hi. apply step_no_recreate, Hi.
    + rewrite Hc. reflexivity.
  - rewrite notifications_app. apply in_or_app. right.
    apply run_downgrade; [exact Hm|rewrite Hc; reflexivity|rewrite Hc; reflexivity].
  - rewrite notifications_app, length_app.
    rewrite (notifications_none prefix_event) by (try by_event; apply prefix_events).
    rewrite run_notifications by exact Hm. rewrite Hc. reflexivity.
Qed.

Lemma step_container_at (ctr : container) (granted : bool) (sched : list bool) (c : config) :
  container_at ctr granted c ->
  container_at ctr granted (fst (step sched c)) /\
  Forall (fun _ : event => True) (snd (step sched c)).
Proof.
  destruct c as [m g si ctr']. unfold container_at, step, main_turn, main_done, go_done.
  simpl. intros H. split; [|apply Forall_forall; intros; exact I].
  destruct granted.
  - destruct g as [|w|w|[e|]|e|e|e|e| |]; try contradiction;
      destruct m; simpl;
      try destruct (State_eqb (si_State si) StateExit);
      try destruct sched as [|[|] sched]; simpl;
      try destruct (is_nil (StateChanged host (containerID ctr') _));
      simpl; try exact H; subst ctr'; reflexivity.
  - destruct H as [-> ->].
    destruct m; simpl;
      try destruct (State_eqb (si_State si) StateExit);
      try destruct (is_nil (StateChanged host (containerID ctr) _));
      split; reflexivity.
Qed.

(** X11. [waitExit] changes nothing of the container but the [restarting]
    flag: when both threads have ended, the container is the one
    [waitExit] was called on if no goroutine was started (exec process, or
    no restart granted), and that container with [restarting] false after a
    granted restart, whatever the channel delivered and under every
    schedule. *)
Theorem waitExit_final_container (ctr : container) (pid : Z) (name : string)
    (isFirst : bool) (sched : list bool) :
  let granted :=
    isFirst && negb (is_nil (restart_granted ctr (observed_exitCode ctr pid))) in
  finished (snd (waitExit ctr pid name isFirst sched)) = true /\
  c_ctr (snd (waitExit ctr pid name isFirst sched)) =
    (if granted then set_restarting ctr false else ctr).
Proof.
  cbv zeta. rewrite waitExit_config.
  pose proof (run_finished waitExit_fuel sched _ (prefix_measure ctr pid name isFirst)) as Hf.
  split; [exact Hf|].
  set (granted := isFirst && negb (is_nil (restart_granted ctr (observed_exitCode ctr pid)))).
  assert (Hinit : container_at ctr granted (snd (waitExit_prefix ctr pid name isFirst))).
  { subst granted. destruct isFirst.
    - rewrite prefix_init_config.
      destruct (restart_granted ctr (observed_exitCode ctr pid)); simpl;
        [reflexivity|split; reflexivity].
    - rewrite prefix_exec. simpl. split; reflexivity. }
  destruct (run_forall (fun _ => True) (container_at ctr granted)
              (step_container_at ctr granted) waitExit_fuel sched _ Hinit) as [_ Hend].
  revert Hf Hend.
  destruct (snd (run waitExit_fuel sched (snd (waitExit_prefix ctr pid name isFirst))))
    as [m g si ctr'].
  unfold finished, main_done, go_done, container_at. simpl.
  destruct granted; destruct m, g; simpl; intros Hf Hend; try discriminate;
    try contradiction; try exact Hend; try (destruct Hend as [H ?]; try discriminate H);
    assumption.
Qed.

(** X12. In the exit of an init process the restart manager is consulted at
    most once, exactly when no manual stop was requested and a restart
    manager is set, and always with the exit code as a uint32, the flag
    false and the time since the container started; for an exec process it
    is not consulted. *)
Theorem waitExit_should_restart_call (ctr : container) (pid : Z) (name : string)
    (isFirst : bool) (sched : list bool) :
  filter is_ShouldRestart (fst (waitExit ctr pid name isFirst sched)) =
  if isFirst && negb (manualStopRequested ctr) && negb (is_nil (restartManager ctr))
  then [EvShouldRestart (uint32 (observed_exitCode ctr pid)) false
          (Since host (startedAt ctr))]
  else [].
Proof.
  rewrite waitExit_trace, filter_app.
  rewrite (filter_none tail_event is_ShouldRestart (fst (run _ _ _)))
    by (try by_event; apply run_events).
  rewrite app_nil_r. destruct isFirst.
  - rewrite <- (filter_calls is_ShouldRestart) by by_event.
    rewrite prefix_calls. unfold init_prefix_calls. cbn [andb].
    destruct (ShutdownComputeSystem host (containerID ctr) (5 * 60 * 1000) "waitExit") as [e|];
      [destruct (whitelisted e)|];
      destruct (negb (manualStopRequested ctr) && negb (is_nil (restartManager ctr)));
      destruct (is_nil (restart_granted ctr (observed_exitCode ctr pid)));
      reflexivity.
  - rewrite prefix_exec. cbn [fst andb].
    apply (filter_none wait_event); [by_event|apply wait_calls].
Qed.

Lemma step_own_event (ctr : container) (sched : list bool) (c : config) :
  containerID (c_ctr c) = containerID ctr /\ friendlyName (c_ctr c) = friendlyName ctr ->
  (containerID (c_ctr (fst (step sched c))) = containerID ctr /\
   friendlyName (c_ctr (fst (step sched c))) = friendlyName ctr) /\
  Forall (own_event ctr) (snd (step sched c)).
Proof.
  destruct c as [m g si ctr']. unfold step, main_turn, main_done, go_done. simpl.
  intros [Hid Hname].
  destruct m, g; simpl;
    try destruct (State_eqb (si_State si) StateExit);
    try destruct sched as [|[|] sched]; simpl;
    (split; [split; assumption|]);
    repeat constructor; simpl; assumption.
Qed.

(** X13. [start] and [waitExit] address no compute system and no container
    but their own: every host, backend and [Create] call of a run names the
    container's id, and every deregistration its friendly name. *)
Theorem own_container_only (ctr : container) (pid : Z) (name : string) (isFirst : bool)
    (sched : list bool) :
  Forall (own_event ctr) (fst (start ctr)) /\
  Forall (own_event ctr) (fst (waitExit ctr pid name isFirst sched)).
Proof.
  assert (Hlog : forall e, is_Log e = true -> own_event ctr e).
  { intros e. destruct e; try discriminate. intros _. split; exact I. }
  split.
  - apply Forall_calls; [exact Hlog|]. rewrite start_calls_eq. unfold start_calls.
    destruct (StartComputeSystem host (containerID ctr)) as [e|];
      [repeat constructor|].
    destruct (existsb isServicing (options ctr)).
    + destruct (is_nil (ShutdownComputeSystem host (containerID ctr) (5 * 60 * 1000) ""));
        repeat constructor.
    + destruct (created_process ctr) as [[[[p stdin] stdout] stderr] [e|]];
        [repeat constructor|].
      destruct (is_nil (AttachStreams host (containerID ctr) (start_iopipe ctr)));
        repeat constructor.
  - rewrite waitExit_trace. apply Forall_app. split.
    + apply Forall_calls; [exact Hlog|]. destruct isFirst.
      * rewrite prefix_calls. unfold init_prefix_calls.
        destruct (ShutdownComputeSystem host (containerID ctr) (5 * 60 * 1000) "waitExit")
          as [e|]; [destruct (whitelisted e)|];
          destruct (negb (manualStopRequested ctr) && negb (is_nil (restartManager ctr)));
          destruct (is_nil (restart_granted ctr (observed_exitCode ctr pid)));
          repeat constructor.
      * rewrite prefix_exec. cbn [fst]. rewrite (proj1 (wait_calls ctr pid)).
        repeat constructor.
    + apply (run_forall (own_event ctr)
               (fun c => containerID (c_ctr c) = containerID ctr /\
                         friendlyName (c_ctr c) = friendlyName ctr)).
      * intros sched' c Hi. apply step_own_event, Hi.
      * destruct isFirst.
        -- rewrite prefix_init_config.
           destruct (restart_granted ctr (observed_exitCode ctr pid)); split; reflexivity.
        -- rewrite prefix_exec. split; reflexivity.
Qed.

(** X14. An error of [ShouldRestart] counts as a refusal even when the
    decision it comes with is true: the error is logged, no goroutine is
    started, the container is deregistered and the one notification has
    state Exit. *)
Theorem waitExit_should_restart_error (ctr : container) (pid : Z) (name : string)
    (sched : list bool) (rm : RestartManager) (restart : bool) (wait : option error)
    (e : error) :
  manualStopRequested ctr = false ->
  restartManager ctr = Some rm ->
  ShouldRestart rm (uint32 (observed_exitCode ctr pid)) false (Since host (startedAt ctr))
    = (restart, wait, Some e) ->
  let tr := fst (waitExit ctr pid name true sched) in
  In (EvLog LError "%v") tr /\
  never is_GoFunc tr = true /\
  occurs is_DeleteContainer tr = true /\
  notifications tr = [exit_info ctr pid name] /\
  si_State (exit_info ctr pid name) = StateExit.
Proof.
  intros Hstop Hrm Hans. cbv zeta.
  assert (Hg : restart_granted ctr (observed_exitCode ctr pid) = None).
  { unfold restart_granted. rewrite Hstop, Hrm, Hans. reflexivity. }
  pose proof (exit_path_calls ctr pid name sched Hg) as Hc.
  split; [|split; [|split; [|split]]].
  - rewrite waitExit_trace, prefix_init_trace. apply in_or_app. left.
    apply in_or_app. right. apply in_or_app. right.
    unfold waitExit_restart. rewrite Hstop, Hrm. cbn [negb]. mstep. rewrite Hans. mstep.
    right. left. reflexivity.
  - rewrite <- (never_calls is_GoFunc) by by_event. rewrite Hc, never_app.
    unfold init_prefix_calls.
    destruct (ShutdownComputeSystem host (containerID ctr) (5 * 60 * 1000) "waitExit")
      as [e'|]; [destruct (whitelisted e')|];
      destruct (negb (manualStopRequested ctr) && negb (is_nil (restartManager ctr)));
      reflexivity.
  - rewrite <- (occurs_calls is_DeleteContainer) by by_event. rewrite Hc, occurs_app.
    apply orb_true_r.
  - rewrite <- notifications_calls, Hc, notifications_app.
    rewrite (notifications_none prefix_event)
      by (try by_event; apply init_prefix_calls_other).
    reflexivity.
  - reflexivity.
Qed.

Lemma forallb_calls (q : event -> bool) (tr : trace) :
  forallb q tr = true -> forallb q (calls tr) = true.
Proof.
  induction tr as [|e tr IH]; [reflexivity|].
  unfold calls in *. simpl. intros H. apply andb_prop in H. destruct H as [He Ht].
  destruct (is_Log e); simpl; [|rewrite He]; auto.
Qed.

(** X15. The exit of an init process begins, under every schedule and
    whatever the wait and the property query answered, with the same calls
    in the same order: the wait, the property query, one shutdown, the
    termination when the shutdown error escalates, the restart decision
    when it is taken, the launch of the goroutine when a restart is
    granted.  Deregistrations, notifications, the receive and the
    re-creation all come after them. *)
Theorem waitExit_teardown_order (ctr : container) (pid : Z) (name : string)
    (sched : list bool) :
  exists post,
    calls (fst (waitExit ctr pid name true sched)) =
      init_prefix_calls ctr pid
      ++ (if is_nil (restart_granted ctr (observed_exitCode ctr pid)) then []
          else [EvGoFunc])
      ++ post /\
    forallb tail_event post = true /\
    never tail_event (init_prefix_calls ctr pid) = true.
Proof.
  exists (calls (fst (run waitExit_fuel sched (snd (waitExit_prefix ctr pid name true))))).
  split; [|split].
  - rewrite waitExit_trace, calls_app, prefix_calls, <- app_assoc. reflexivity.
  - apply forallb_calls, run_events.
  - unfold init_prefix_calls.
    destruct (ShutdownComputeSystem host (containerID ctr) (5 * 60 * 1000) "waitExit")
      as [e|]; [destruct (whitelisted e)|];
      destruct (negb (manualStopRequested ctr) && negb (is_nil (restartManager ctr)));
      reflexivity.
Qed.

End Model.

(** ** The statements at sample inputs *)

(** C2 at a container with a restart manager and a manual stop request. *)
Lemma waitExit_manual_stop_witness :
  manualStopRequested (sample_container (Some (rm_grant None)) [] true) = true /\
  never is_ShouldRestart
    (fst (waitExit 161 host_ok (sample_container (Some (rm_grant None)) [] true)
            4 "init" true [])) = true.
Proof.
  split; [reflexivity|].
  destruct (waitExit_manual_stop 161 host_ok (sample_container (Some (rm_grant None)) [] true)
              4 "init" [] eq_refl) as [H _].
  exact H.
Defined.

(** C3 at a granted restart whose channel delivers no error. *)
Lemma waitExit_restart_deregisters_after_wait_witness :
  restart_granted host_ok (sample_container (Some (rm_grant None)) [] false)
    (observed_exitCode host_ok (sample_container (Some (rm_grant None)) [] false) 4)
  = Some None /\
  precedes is_ChanRecv is_DeleteContainer
    (fst (waitExit 161 host_ok (sample_container (Some (rm_grant None)) [] false)
            4 "init" true [false; false; false])) = true.
Proof.
  split; [reflexivity|].
  destruct (waitExit_restart_deregisters_after_wait 161 host_ok
              (sample_container (Some (rm_grant None)) [] false) 4 "init"
              [false; false; false] None eq_refl) as [H _].
  exact H.
Defined.

(** C4 at a servicing container whose shutdown fails and whose termination
    succeeds: the shutdown error is returned. *)
Lemma start_servicing_path_witness :
  In (ServicingOption true)
    (options (sample_container None [OtherOption "flush"; ServicingOption true] false)) /\
  StartComputeSystem (host_shutdown_fails (errorString "shutdown failed")) "c1" = None /\
  TerminateComputeSystem (host_shutdown_fails (errorString "shutdown failed")) "c1"
    (1 * 60 * 1000) "" = None /\
  fst (snd (start "init" sample_env (fun h => h)
              (host_shutdown_fails (errorString "shutdown failed"))
              (sample_container None [OtherOption "flush"; ServicingOption true] false)))
  = Some (errorString "shutdown failed").
Proof.
  split; [right; left; reflexivity|]. split; [reflexivity|]. split; [reflexivity|].
  destruct (start_servicing_path "init" sample_env (fun h => h)
              (host_shutdown_fails (errorString "shutdown failed"))
              (sample_container None [OtherOption "flush"; ServicingOption true] false)
              (or_intror (or_introl eq_refl))) as [_ [_ [_ [_ H]]]].
  destruct (H eq_refl) as [_ Hret]. exact Hret.
Defined.

(** C5 at a shutdown that fails with shutdown-in-progress. *)
Lemma waitExit_shutdown_failure_witness :
  ShutdownComputeSystem
    (host_shutdown_fails (HcsError "ShutdownComputeSystem"
                            (Errno hcsshim.ERROR_SHUTDOWN_IN_PROGRESS)))
    "c1" (5 * 60 * 1000) "waitExit"
  = Some (HcsError "ShutdownComputeSystem" (Errno hcsshim.ERROR_SHUTDOWN_IN_PROGRESS)) /\
  never is_Terminate
    (fst (waitExit 161
            (host_shutdown_fails (HcsError "ShutdownComputeSystem"
                                    (Errno hcsshim.ERROR_SHUTDOWN_IN_PROGRESS)))
            (sample_container None [] false) 4 "init" true [])) = true.
Proof.
  split; [reflexivity|].
  destruct (waitExit_shutdown_failure 161
              (host_shutdown_fails (HcsError "ShutdownComputeSystem"
                                      (Errno hcsshim.ERROR_SHUTDOWN_IN_PROGRESS)))
              (sample_container None [] false) 4 "init" []
              (HcsError "ShutdownComputeSystem" (Errno hcsshim.ERROR_SHUTDOWN_IN_PROGRESS))
              eq_refl) as [H _].
  exact H.
Defined.

(** C8 at a host whose process creation fails. *)
Lemma start_create_failure_witness :
  existsb isServicing (options (sample_container None [] false)) = false /\
  StartComputeSystem host_create_fails "c1" = None /\
  snd (start "init" sample_env (fun h => h) host_create_fails
         (sample_container None [] false))
  = (Some (errorString "create failed"), sample_container None [] false).
Proof.
  split; [reflexivity|]. split; [reflexivity|].
  destruct (start_create_failure "init" sample_env (fun h => h) host_create_fails
              (sample_container None [] false) (0, None, None, None)
              (errorString "create failed") eq_refl eq_refl eq_refl) as [_ [H _]].
  exact H.
Defined.

(** C9 at a process without a terminal: stderr is asked for. *)
Lemma start_create_request_witness :
  existsb isServicing (options (sample_container None [] false)) = false /\
  StartComputeSystem host_ok "c1" = None /\
  create_requests
    (fst (start "init" sample_env (fun h => h) host_ok (sample_container None [] false)))
  = [(true, true, true)].
Proof.
  split; [reflexivity|]. split; [reflexivity|].
  exact (proj2 (start_create_request "init" sample_env (fun h => h) host_ok
                  (sample_container None [] false)) eq_refl eq_refl).
Defined.

(** C10 at a host whose compute system does not start. *)
Lemma start_compute_system_failure_witness :
  StartComputeSystem host_start_fails "c1" = Some (errorString "start failed") /\
  calls (fst (start "init" sample_env (fun h => h) host_start_fails
                (sample_container None [] false)))
  = [EvStartComputeSystem "c1"].
Proof.
  split; [reflexivity|].
  exact (proj2 (start_compute_system_failure "init" sample_env (fun h => h) host_start_fails
                  (sample_container None [] false) (errorString "start failed") eq_refl)).
Defined.

(** ** Where the code departs from the specification *)

(** C1 as stated fails: a restart is granted and its channel delivers an
    error.  The parent notifies Restart and the goroutine the downgraded
    Exit; when the goroutine runs first, both notify Exit.  Either way two
    notifications are sent. *)
Lemma waitExit_restart_failure_notifies_twice :
  notifications
    (fst (waitExit 161 host_ok
            (sample_container (Some (rm_grant (Some (errorString "restart canceled")))) [] false)
            4 "init" true []))
  = [mkStateInfo StateRestart 4 1 "init" false; mkStateInfo StateExit 4 1 "init" false] /\
  notifications
    (fst (waitExit 161 host_ok
            (sample_container (Some (rm_grant (Some (errorString "restart canceled")))) [] false)
            4 "init" true [false; false; false; false; false]))
  = [mkStateInfo StateExit 4 1 "init" false; mkStateInfo StateExit 4 1 "init" false] /\
  List.length
    (notifications
       (fst (waitExit 161 host_ok
               (sample_container (Some (rm_grant (Some (errorString "restart canceled")))) []
                  false)
               4 "init" true [])))
  <> 1%nat.
Proof.
  split; [reflexivity|]. split; [reflexivity|]. vm_compute. discriminate.
Qed.

(** C3 as stated fails: after a granted restart no deregistration comes
    before the receive from the channel, whether the parent or the
    goroutine runs first. *)
Lemma waitExit_restart_keeps_registration :
  calls (fst (waitExit 161 host_ok (sample_container (Some (rm_grant None)) [] false)
                4 "init" true []))
  = [EvWaitForProcessInComputeSystem "c1" 4 hcsshim.TimeoutInfinite;
     EvGetComputeSystemProperties "c1" 1;
     EvShutdownComputeSystem "c1" 300000 "waitExit";
     EvShouldRestart 1 false 4000;
     EvGoFunc;
     EvStateChanged "c1" (mkStateInfo StateRestart 4 1 "init" false);
     EvChanRecv None;
     EvDeleteContainer "c1";
     EvCreate "c1" (mkSpec (sample_process false)) []] /\
  precedes is_DeleteContainer is_ChanRecv
    (fst (waitExit 161 host_ok (sample_container (Some (rm_grant None)) [] false)
            4 "init" true [])) = false /\
  precedes is_DeleteContainer is_ChanRecv
    (fst (waitExit 161 host_ok (sample_container (Some (rm_grant None)) [] false)
            4 "init" true [false; false; false])) = false.
Proof.
  split; [reflexivity|]. split; reflexivity.
Qed.

(** C7 as stated fails: the termination of [waitExit] is called with
    5 minutes, and the termination after a failed process creation with
    [TimeoutInfinite]; neither is the 1 minute of the claim. *)
Lemma termination_timeouts_differ :
  terminate_timeouts
    (fst (waitExit 161 (host_shutdown_fails (errorString "access denied"))
            (sample_container None [] false) 4 "init" true []))
  = [5 * 60 * 1000] /\
  terminate_timeouts
    (fst (start "init" sample_env (fun h => h) host_create_fails
            (sample_container None [] false)))
  = [hcsshim.TimeoutInfinite] /\
  5 * 60 * 1000 <> 1 * 60 * 1000 /\
  hcsshim.TimeoutInfinite <> 1 * 60 * 1000.
Proof.
  split; [reflexivity|]. split; [reflexivity|]. split; discriminate.
Qed.

(** ** Further statements at sample inputs *)

(** X1 on a host where every call succeeds. *)
Lemma start_success_path_witness :
  existsb isServicing (options (sample_container None [] false)) = false /\
  StartComputeSystem host_ok "c1" = None /\
  created_process sample_env host_ok (sample_container None [] false)
  = (4, Some 1%nat, Some 2%nat, Some 3%nat, None) /\
  AttachStreams host_ok "c1" (mkIOPipe (Some 1%nat) (Some 2%nat) (Some 3%nat) false) = None /\
  snd (start "init" sample_env (fun h => h) host_ok (sample_container None [] false))
  = (None, set_systemPid (set_startedAt (sample_container None [] false) 1000) 4).
Proof.
  split; [reflexivity|]. split; [reflexivity|]. split; [reflexivity|].
  split; [reflexivity|].
  exact (proj2 (start_success_path "init" sample_env (fun h => h) host_ok
                  (sample_container None [] false) 4 (Some 1%nat) (Some 2%nat) (Some 3%nat)
                  eq_refl eq_refl eq_refl eq_refl)).
Defined.

(** X2 on a host whose stream attachment fails. *)
Lemma start_attach_failure_witness :
  existsb isServicing (options (sample_container None [] false)) = false /\
  StartComputeSystem host_attach_fails "c1" = None /\
  AttachStreams host_attach_fails "c1"
    (start_iopipe sample_env (fun h => h) host_attach_fails (sample_container None [] false))
  = Some (errorString "attach failed") /\
  monitors (fst (start "init" sample_env (fun h => h) host_attach_fails
                   (sample_container None [] false)))
  = [(4, "init", true)].
Proof.
  split; [reflexivity|]. split; [reflexivity|]. split; [reflexivity|].
  destruct (start_attach_failure "init" sample_env (fun h => h) host_attach_fails
              (sample_container None [] false) 4 (Some 1%nat) (Some 2%nat) (Some 3%nat)
              (errorString "attach failed") eq_refl eq_refl eq_refl eq_refl)
    as [_ [_ [H _]]].
  exact H.
Defined.

(** X3 on a host where every call succeeds. *)
Lemma start_nil_return_witness :
  fst (snd (start "init" sample_env (fun h => h) host_ok (sample_container None [] false)))
  = None /\
  never is_Terminate
    (fst (start "init" sample_env (fun h => h) host_ok (sample_container None [] false)))
  = true.
Proof.
  split; [reflexivity|].
  destruct (start_nil_return "init" sample_env (fun h => h) host_ok
              (sample_container None [] false) eq_refl) as [H _].
  exact H.
Defined.

(** X7 at a container without a restart manager. *)
Lemma waitExit_exit_path_witness :
  restart_granted host_ok (sample_container None [] false)
    (observed_exitCode host_ok (sample_container None [] false) 4) = None /\
  calls (fst (waitExit 161 host_ok (sample_container None [] false) 4 "init" true []))
  = [EvWaitForProcessInComputeSystem "c1" 4 hcsshim.TimeoutInfinite;
     EvGetComputeSystemProperties "c1" 1;
     EvShutdownComputeSystem "c1" 300000 "waitExit";
     EvDeleteContainer "c1";
     EvStateChanged "c1" (mkStateInfo StateExit 4 1 "init" false)].
Proof.
  split; [reflexivity|].
  destruct (waitExit_exit_path 161 host_ok (sample_container None [] false) 4 "init" []
              eq_refl) as [H _].
  exact H.
Defined.

(** X9 at a granted restart whose channel delivers no error, the goroutine
    running first. *)
Lemma waitExit_restart_success_witness :
  restart_granted host_ok (sample_container (Some (rm_grant None)) [] false)
    (observed_exitCode host_ok (sample_container (Some (rm_grant None)) [] false) 4)
  = Some None /\
  notifications
    (fst (waitExit 161 host_ok (sample_container (Some (rm_grant None)) [] false)
            4 "init" true [false; false; false; false]))
  = [mkStateInfo StateRestart 4 1 "init" false].
Proof.
  split; [reflexivity|].
  destruct (waitExit_restart_success 161 host_ok
              (sample_container (Some (rm_grant None)) [] false) 4 "init"
              [false; false; false; false] eq_refl) as [H _].
  exact H.
Defined.

(** X10 at a granted restart whose channel delivers an error. *)
Lemma waitExit_restart_failure_witness :
  restart_granted host_ok
    (sample_container (Some (rm_grant (Some (errorString "restart canceled")))) [] false)
    (observed_exitCode host_ok
       (sample_container (Some (rm_grant (Some (errorString "restart canceled")))) [] false)
       4)
  = Some (Some (errorString "restart canceled")) /\
  never is_Create
    (fst (waitExit 161 host_ok
            (sample_container (Some (rm_grant (Some (errorString "restart canceled")))) []
               false)
            4 "init" true [true; false; false; true]))
  = true.
Proof.
  split; [reflexivity|].
  destruct (waitExit_restart_failure 161 host_ok
              (sample_container (Some (rm_grant (Some (errorString "restart canceled")))) []
                 false)
              4 "init" [true; false; false; true] (errorString "restart canceled") eq_refl)
    as [H _].
  exact H.
Defined.

(** X14 at a restart manager that answers true with an error. *)
Lemma waitExit_should_restart_error_witness :
  manualStopRequested (sample_container (Some rm_error) [] false) = false /\
  restartManager (sample_container (Some rm_error) [] false) = Some rm_error /\
  ShouldRestart rm_error
    (uint32 (observed_exitCode host_ok (sample_container (Some rm_error) [] false) 4))
    false (Since host_ok (startedAt (sample_container (Some rm_error) [] false)))
  = (true, None, Some (errorString "restart manager failed")) /\
  notifications
    (fst (waitExit 161 host_ok (sample_container (Some rm_error) [] false) 4 "init" true []))
  = [mkStateInfo StateExit 4 1 "init" false].
Proof.
  split; [reflexivity|]. split; [reflexivity|]. split; [reflexivity|].
  destruct (waitExit_should_restart_error 161 host_ok
              (sample_container (Some rm_error) [] false) 4 "init" [] rm_error true None
              (errorString "restart manager failed") eq_refl eq_refl eq_refl)
    as [_ [_ [_ [H _]]]].
  exact H.
Defined.
